(** * Quote Generator service: the request handlers of [src/routes.js]

    A shallow embedding of the Express router of the quote service: the
    validation pipeline of [POST /quote], the id parsing of
    [DELETE /quote/:id], the random-quote, statistics and metrics
    handlers, and the request-observing middleware with its Prometheus
    counters.  The database module ([./db]) and the profanity filter
    ([./profanityFilter]) are collaborators of the router; the handlers
    are stated over their interfaces. *)

From Stdlib Require Import ZArith NArith List Bool Lia.
From stdpp Require Import base decidable option numbers list strings pretty gmap.

Open Scope Z_scope.

(** ** JavaScript strings

    A JavaScript string is a sequence of UTF-16 code units; [.length]
    counts code units and [.trim()] strips white space and line
    terminators from both ends. *)

Module JsString.

Definition code_unit := N.
Definition t := list code_unit.

(** Code units of an ASCII literal. *)
Fixpoint of_ascii (s : string) : t :=
  match s with
  | EmptyString => []
  | String c s' => Ascii.N_of_ascii c :: of_ascii s'
  end.

(** [s.length] *)
Definition length (s : t) : Z := Z.of_nat (List.length s).

(** ECMAScript WhiteSpace and LineTerminator code points, the set that
    [String.prototype.trim] and [parseInt] skip. *)
Definition is_white_space (c : code_unit) : bool :=
  ((9 <=? c) && (c <=? 13) ||
   (c =? 32) || (c =? 160) || (c =? 5760) ||
   (8192 <=? c) && (c <=? 8202) ||
   (c =? 8232) || (c =? 8233) || (c =? 8239) || (c =? 8287) ||
   (c =? 12288) || (c =? 65279))%N.

(** [s.trimStart()] *)
Fixpoint trimStart (s : t) : t :=
  match s with
  | [] => []
  | c :: s' => if is_white_space c then trimStart s' else s
  end.

(** [s.trimEnd()] *)
Definition trimEnd (s : t) : t := rev (trimStart (rev s)).

(** [s.trim()] *)
Definition trim (s : t) : t := trimEnd (trimStart s).

End JsString.

Abbreviation jsstring := JsString.t.

(** ** JavaScript values of a parsed JSON body *)

(** The value of a property read off [req.body]: absent ([undefined]),
    [null], or a JSON boolean, number, string, array or object.  Of a
    number only the two facts the handler looks at are kept: it is a
    number, and whether it is zero (the only falsy JSON number, [0] or
    [-0]). *)
Inductive jsval : Type :=
| JUndefined
| JNull
| JBool (b : bool)
| JNumber (is_zero : bool)
| JString (s : jsstring)
| JArray
| JObject.


(** [!v] is [false] exactly on the truthy values. *)
Definition truthy (v : jsval) : bool :=
  match v with
  | JUndefined | JNull => false
  | JBool b => b
  | JNumber z => negb z
  | JString s => negb (JsString.length s =? 0)
  | JArray | JObject => true
  end.

(** [typeof v === 'string'] *)
Definition is_string (v : jsval) : bool :=
  match v with JString _ => true | _ => false end.

(** The string a value is when [typeof v === 'string'] holds. *)
Definition as_string (v : jsval) : jsstring :=
  match v with JString s => s | _ => [] end.

(** The two properties the handler destructures from [req.body]. *)
Record Submission := { text : jsval; author : jsval }.

(** ** JavaScript numbers that are integers *)

Module Number.

(** The Number values the handler meets: [NaN], the doubles that are
    integers, and the two infinities.  ([-0] is [Finite 0]: it compares
    and prints as [0].) *)
Inductive t : Type :=
| NaN
| Finite (z : Z)
| PosInfinity
| NegInfinity.

(** The double nearest to the natural number [n], ties to the even
    significand: [n] itself below 2^53; beyond, the 53 leading bits
    rounded by the rest, and infinity once that reaches 2^1024. *)
Definition round (n : Z) : t :=
  if n <? 2 ^ 53 then Finite n
  else
    let e := Z.log2 n - 52 in
    let q := n / 2 ^ e in
    let r := n mod 2 ^ e in
    let half := 2 ^ (e - 1) in
    let q' := if (half <? r) || ((r =? half) && Z.odd q) then q + 1 else q in
    if 2 ^ 1024 <=? q' * 2 ^ e then PosInfinity else Finite (q' * 2 ^ e).

Definition negate (x : t) : t :=
  match x with
  | NaN => NaN
  | Finite z => Finite (- z)
  | PosInfinity => NegInfinity
  | NegInfinity => PosInfinity
  end.

(** The Number value of a mathematical integer. *)
Definition of_integer (z : Z) : t :=
  if z <? 0 then negate (round (- z)) else round z.

(** [Number.isNaN(x)] *)
Definition isNaN (x : t) : bool :=
  match x with NaN => true | _ => false end.

(** [x <= 0] *)
Definition le_zero (x : t) : bool :=
  match x with
  | NaN => false
  | Finite z => z <=? 0
  | PosInfinity => false
  | NegInfinity => true
  end.

(** [x] is a positive number. *)
Definition positive (x : t) : Prop :=
  match x with
  | Finite z => 0 < z
  | PosInfinity => True
  | _ => False
  end.

Definition rounds_to (v x : Z) : bool :=
  match round v with Finite y => y =? x | _ => false end.

Definition decimal_length (n : Z) : Z := Z.of_nat (String.length (pretty n)).

(** The value of the shortest decimal numeral, of at least [k]
    significant digits, that rounds to the double [x]; of two numerals of
    that length the nearer to [x], and of two equally near the even
    one. *)
Fixpoint shortest (fuel : nat) (k : Z) (x : Z) : Z :=
  match fuel with
  | O => x
  | S fuel' =>
      let j := decimal_length x - k in
      if j <=? 0 then x
      else
        let down := x / 10 ^ j * 10 ^ j in
        let up := down + 10 ^ j in
        match rounds_to down x, rounds_to up x with
        | true, true =>
            if x - down <? up - x then down
            else if up - x <? x - down then up
            else if Z.even (x / 10 ^ j) then down else up
        | true, false => down
        | false, true => up
        | false, false => shortest fuel' (k + 1) x
        end
  end.

Fixpoint strip_zeros (fuel : nat) (v : Z) : Z :=
  match fuel with
  | O => v
  | S fuel' => if v mod 10 =? 0 then strip_zeros fuel' (v / 10) else v
  end.

(** The numeral of [v >= 10^21] in exponent form. *)
Definition exponent_form (v : Z) : string :=
  let n := decimal_length v in
  let exponent := "e+" +:+ pretty (n - 1) in
  match pretty (strip_zeros (Z.to_nat n) v) with
  | String c EmptyString => String c exponent
  | String c rest => String c ("." +:+ rest +:+ exponent)
  | EmptyString => exponent
  end.

(** [String(x)] of a natural number that is a double. *)
Definition natural_toString (x : Z) : string :=
  if x <? 2 ^ 53 then pretty x
  else
    let v := shortest 17 1 x in
    if v <? 10 ^ 21 then pretty v else exponent_form v.

(** [String(x)], the conversion a template literal applies. *)
Definition toString (x : t) : string :=
  match x with
  | NaN => "NaN"
  | Finite z => if z <? 0 then "-" +:+ natural_toString (- z)
                else natural_toString z
  | PosInfinity => "Infinity"
  | NegInfinity => "-Infinity"
  end.

End Number.

(** ** Records of the service *)

(** A row of the [quotes] table as [./db] hands it out. *)
Record Quote := {
  q_id : Z;
  q_text : jsstring;
  q_author : jsstring;
  q_views : Z;
  q_createdAt : N }.

(** The object [db.getStats()] resolves to. *)
Record Stats := { totalQuotes : Z; totalViews : Z }.

(** The object [profanityFilter.validateQuote] returns. *)
Record Validation := { isValid : bool; message : option string }.

(** The [{ id, text, author, views }] object of a response. *)
Record QuoteData := {
  d_id : Z;
  d_text : jsstring;
  d_author : jsstring;
  d_views : Z }.

Definition quote_data (q : Quote) : QuoteData :=
  {| d_id := q_id q; d_text := q_text q; d_author := q_author q;
     d_views := q_views q |}.

(** The JSON documents the handlers send.  [Failure] is every body with
    [success: false]; the others carry [success: true]. *)
Inductive Payload : Type :=
| Failure (error : string) (msg : option string)
| QuoteServed (data : QuoteData)
| QuoteAdded (msg : string) (data : QuoteData)
| QuoteList (data : list Quote)
| StatsReport (totalQuotes' totalRandomQuoteRequests : Z)
              (quotesAdded profanityBlocked : nat)
| QuoteDeleted (msg : string)
| MetricsText (body : string)
| Healthy (timestamp : string).

Record Response := { statusCode : N; payload : Payload }.

(** A promise settles: it resolves to a value or rejects with an error,
    of which the handlers read [error.message]. *)
Inductive outcome (A : Type) : Type :=
| Resolved (a : A)
| Rejected (error_message : string).
Arguments Resolved {A} a.
Arguments Rejected {A} error_message.

(** ** The collaborators of the router *)

(** The functions of [./db] the router calls, over the state [S] of the
    database.  A quote that is not there is [None] (a falsy row). *)
Class QuoteDb (S : Type) := {
  getRandomQuote : S -> outcome (option Quote) * S;
  addQuote : jsstring -> jsstring -> S -> outcome Quote * S;
  getAllQuotes : S -> outcome (list Quote) * S;
  deleteQuote : Number.t -> S -> outcome bool * S;
  getStats : S -> outcome Stats * S }.

(** [./profanityFilter]. *)
Class ProfanityFilter := validateQuote : jsstring -> jsstring -> Validation.

(** ** Prometheus metrics *)

(** The five metrics the router declares.  A labelled counter is a map
    from label values to counts, absent cells counting zero; a histogram
    cell keeps the samples observed under its labels (durations in
    nanoseconds). *)
Record Metrics := {
  quotesServedCounter : nat;
  quotesAddedCounter : nat;
  profanityBlockedCounter : nat;
  httpRequestsCounter : gmap (string * jsstring * string) nat;
  requestDurationHistogram : gmap (string * jsstring) (list N) }.

(** [register.metrics()]: the text rendering of the registry. *)
Class Registry := register_metrics : Metrics -> string.

(** [counter.get().values[0]?.value || 0] on a plain counter that stands
    at [n].  Where [get()] is synchronous the expression is [n]
    ([counter_now]); where the library's [get()] returns a promise,
    [.values] is undefined and reading its index throws a [TypeError]
    ([counter_pending]).  The handlers are stated over either. *)
Class CounterGet := counter_get : nat -> outcome nat.

(** Calls that leave the router, in the order they are made. *)
Inductive Call : Type :=
| Call_getRandomQuote
| Call_addQuote (text' author' : jsstring)
| Call_getAllQuotes
| Call_deleteQuote (id : Number.t)
| Call_getStats
| Call_validateQuote (text' author' : jsstring).

(** What a handler runs against: the database, the metrics of the
    process, and the log of calls made so far. *)
Record World (S : Type) := {
  store : S;
  metrics : Metrics;
  calls : list Call }.
Arguments store {S} _.
Arguments metrics {S} _.
Arguments calls {S} _.

(** ** Handlers as state transformers that may throw *)

Definition Handler (S A : Type) : Type := World S -> outcome A * World S.

#[global] Instance handler_ret {S} : MRet (Handler S) :=
  fun A a w => (Resolved a, w).

#[global] Instance handler_bind {S} : MBind (Handler S) :=
  fun A B f m w =>
    match m w with
    | (Resolved a, w') => f a w'
    | (Rejected e, w') => (Rejected e, w')
    end.

(** [throw new TypeError(message)] *)
Definition throw {S A} (error_message : string) : Handler S A :=
  fun w => (Rejected error_message, w).

(** [try { body } catch (error) { handler }] *)
Definition try_catch {S A} (body : Handler S A) (handler : string -> Handler S A)
  : Handler S A :=
  fun w =>
    match body w with
    | (Resolved a, w') => (Resolved a, w')
    | (Rejected e, w') => handler e w'
    end.

Definition log_call {S} (c : Call) (w : World S) : World S :=
  {| store := store w; metrics := metrics w; calls := calls w ++ [c] |}.

(** [await db.f(...)]: the call is logged, the database moves on, and a
    rejected promise is thrown at the [await]. *)
Definition await_db {S A} (c : Call) (f : S -> outcome A * S) : Handler S A :=
  fun w =>
    let (r, s') := f (store w) in
    (r, {| store := s'; metrics := metrics w; calls := calls w ++ [c] |}).

Definition update_metrics {S} (f : Metrics -> Metrics) : Handler S unit :=
  fun w => (Resolved tt,
            {| store := store w; metrics := f (metrics w); calls := calls w |}).

Definition read_metrics {S A} (f : Metrics -> A) : Handler S A :=
  fun w => (Resolved (f (metrics w)), w).

Definition read_counter {S} `{!CounterGet} (counter : Metrics -> nat)
  : Handler S nat :=
  fun w => (counter_get (counter (metrics w)), w).

(** ** Counter operations *)

(** [quotesServedCounter.inc()] and its two siblings. *)
Definition inc_quotesServed (m : Metrics) : Metrics :=
  {| quotesServedCounter := S (quotesServedCounter m);
     quotesAddedCounter := quotesAddedCounter m;
     profanityBlockedCounter := profanityBlockedCounter m;
     httpRequestsCounter := httpRequestsCounter m;
     requestDurationHistogram := requestDurationHistogram m |}.

Definition inc_quotesAdded (m : Metrics) : Metrics :=
  {| quotesServedCounter := quotesServedCounter m;
     quotesAddedCounter := S (quotesAddedCounter m);
     profanityBlockedCounter := profanityBlockedCounter m;
     httpRequestsCounter := httpRequestsCounter m;
     requestDurationHistogram := requestDurationHistogram m |}.

Definition inc_profanityBlocked (m : Metrics) : Metrics :=
  {| quotesServedCounter := quotesServedCounter m;
     quotesAddedCounter := quotesAddedCounter m;
     profanityBlockedCounter := S (profanityBlockedCounter m);
     httpRequestsCounter := httpRequestsCounter m;
     requestDurationHistogram := requestDurationHistogram m |}.

(** [httpRequestsCounter.inc({ method, route, status })]: the cell of
    these label values goes up by one, starting from zero. *)
Definition inc_httpRequests (method route status : _) (m : Metrics) : Metrics :=
  let cell := (method, route, status) in
  {| quotesServedCounter := quotesServedCounter m;
     quotesAddedCounter := quotesAddedCounter m;
     profanityBlockedCounter := profanityBlockedCounter m;
     httpRequestsCounter :=
       <[cell := S (httpRequestsCounter m !!! cell)]> (httpRequestsCounter m);
     requestDurationHistogram := requestDurationHistogram m |}.

(** The [endTimer()] of [requestDurationHistogram.startTimer({ method,
    route })]: one sample, the time elapsed since the start. *)
Definition observe_duration (method : string) (route : jsstring) (elapsed : N)
    (m : Metrics) : Metrics :=
  let cell := (method, route) in
  {| quotesServedCounter := quotesServedCounter m;
     quotesAddedCounter := quotesAddedCounter m;
     profanityBlockedCounter := profanityBlockedCounter m;
     httpRequestsCounter := httpRequestsCounter m;
     requestDurationHistogram :=
       <[cell := requestDurationHistogram m !!! cell ++ [elapsed]]>
         (requestDurationHistogram m) |}.

(** ** [Number.parseInt(string, 10)] *)

Module ParseInt.

(** The value of a decimal digit, if the code unit is one. *)
Definition digit (c : JsString.code_unit) : option Z :=
  if ((48 <=? c) && (c <=? 57))%N then Some (Z.of_N c - 48) else None.

(** The longest prefix of decimal digits, read left to right; [seen]
    tells whether a digit was consumed, [acc] is their value. *)
Fixpoint digits (s : jsstring) (seen : bool) (acc : Z) : option Z :=
  match s with
  | [] => if seen then Some acc else None
  | c :: s' =>
      match digit c with
      | Some d => digits s' true (10 * acc + d)
      | None => if seen then Some acc else None
      end
  end.

(** The mathematical integer [parseInt(s, 10)] reads, sign applied, if
    it reads one: leading white space is skipped, one sign is read, then
    the longest digit prefix; anything after it is ignored. *)
Definition integer (s : jsstring) : option Z :=
  match JsString.trimStart s with
  | [] => None
  | c :: s' =>
      if (c =? 45)%N then Z.opp <$> digits s' false 0
      else if (c =? 43)%N then digits s' false 0
      else digits (c :: s') false 0
  end.

(** [Number.parseInt(s, 10)]: [NaN] where no digit is read, and
    otherwise the Number value of the integer read, which is that integer
    rounded to a double.  (The standard lets an engine read the digits
    after the twentieth as zeros; Node's engine reads them all, and so
    does this definition.) *)
Definition parseInt (s : jsstring) : Number.t :=
  match integer s with
  | None => Number.NaN
  | Some z => Number.of_integer z
  end.

End ParseInt.

(** ** The route handlers *)

(** [res.status(code).json(body)] *)
Definition json (code : N) (body : Payload) : Response :=
  {| statusCode := code; payload := body |}.

(** The double quote character inside the messages. *)
Definition dq : string := String (Ascii.ascii_of_nat 34) EmptyString.

Definition msg_required : string :=
  "Both " +:+ dq +:+ "text" +:+ dq +:+ " and " +:+ dq +:+ "author" +:+ dq
  +:+ " fields are required".
Definition msg_strings : string :=
  "Both " +:+ dq +:+ "text" +:+ dq +:+ " and " +:+ dq +:+ "author" +:+ dq
  +:+ " must be strings".
Definition msg_empty : string :=
  "Both " +:+ dq +:+ "text" +:+ dq +:+ " and " +:+ dq +:+ "author" +:+ dq
  +:+ " cannot be empty".
Definition msg_text_length : string := "Quote text cannot exceed 1000 characters".
Definition msg_author_length : string := "Author name cannot exceed 100 characters".
Definition msg_bad_id : string := "Quote id must be a positive integer".

(** The [TypeError] of destructuring an absent [req.body]. *)
Definition msg_no_body : string :=
  "Cannot destructure property 'text' of 'req.body' as it is undefined.".

Definition validation_error (m : string) : Response :=
  json 400 (Failure "Validation error" (Some m)).

Section Routes.

Context {S : Type} {db : QuoteDb S} {profanity : ProfanityFilter}
        {registry : Registry} {counters : CounterGet}.

(** [profanityFilter.validateQuote(text, author)] *)
Definition call_validateQuote (t a : jsstring) : Handler S Validation :=
  fun w => (Resolved (validateQuote t a), log_call (Call_validateQuote t a) w).

(** [GET /quote] *)
Definition get_quote : Handler S Response :=
  try_catch
    (quote ← await_db Call_getRandomQuote getRandomQuote;
     match quote with
     | None => mret (json 404 (Failure "No quotes found in database" None))
     | Some q =>
         update_metrics inc_quotesServed;;
         mret (json 200 (QuoteServed (quote_data q)))
     end)
    (fun error => mret (json 500 (Failure "Failed to fetch quote" (Some error)))).

(** [POST /quote]; [body] is [req.body], [None] when there is none. *)
Definition post_quote (body : option Submission) : Handler S Response :=
  try_catch
    (match body with
     | None => throw msg_no_body
     | Some {| text := text; author := author |} =>
         if negb (truthy text) || negb (truthy author) then
           mret (validation_error msg_required)
         else if negb (is_string text) || negb (is_string author) then
           mret (validation_error msg_strings)
         else
           let text := as_string text in
           let author := as_string author in
           if (JsString.length (JsString.trim text) =? 0)
              || (JsString.length (JsString.trim author) =? 0) then
             mret (validation_error msg_empty)
           else if JsString.length text >? 1000 then
             mret (validation_error msg_text_length)
           else if JsString.length author >? 100 then
             mret (validation_error msg_author_length)
           else
             validation ← call_validateQuote text author;
             if negb (isValid validation) then
               update_metrics inc_profanityBlocked;;
               mret (json 400 (Failure "Profanity detected" (message validation)))
             else
               let text' := JsString.trim text in
               let author' := JsString.trim author in
               newQuote ← await_db (Call_addQuote text' author')
                                   (addQuote text' author');
               update_metrics inc_quotesAdded;;
               mret (json 201 (QuoteAdded "Quote added successfully"
                                          (quote_data newQuote)))
     end)
    (fun error => mret (json 500 (Failure "Failed to add quote" (Some error)))).

(** [GET /quotes] *)
Definition get_quotes : Handler S Response :=
  try_catch
    (quotes ← await_db Call_getAllQuotes getAllQuotes;
     mret (json 200 (QuoteList quotes)))
    (fun error => mret (json 500 (Failure "Failed to fetch quotes" (Some error)))).

(** [GET /stats] *)
Definition get_stats : Handler S Response :=
  try_catch
    (stats ← await_db Call_getStats getStats;
     added ← read_counter quotesAddedCounter;
     blocked ← read_counter profanityBlockedCounter;
     mret (json 200 (StatsReport (totalQuotes stats) (totalViews stats)
                                 added blocked)))
    (fun error =>
       mret (json 500 (Failure "Failed to fetch statistics" (Some error)))).

(** [DELETE /quote/:id]; [param] is [req.params.id]. *)
Definition delete_quote (param : jsstring) : Handler S Response :=
  try_catch
    (let id := ParseInt.parseInt param in
     if Number.isNaN id || Number.le_zero id then
       mret (validation_error msg_bad_id)
     else
       removed ← await_db (Call_deleteQuote id) (deleteQuote id);
       if negb removed then
         mret (json 404 (Failure "Not Found"
                 (Some ("Quote with id " +:+ Number.toString id
                        +:+ " does not exist"))))
       else mret (json 200 (QuoteDeleted "Quote deleted successfully")))
    (fun error => mret (json 500 (Failure "Failed to delete quote" (Some error)))).

(** [GET /metrics] *)
Definition get_metrics : Handler S Response :=
  try_catch
    (text ← read_metrics register_metrics;
     mret (json 200 (MetricsText text)))
    (fun error =>
       mret (json 500 (Failure "Failed to generate metrics" (Some error)))).

(** [GET /health]; [now] is [new Date().toISOString()]. *)
Definition get_health (now : string) : Handler S Response :=
  mret (json 200 (Healthy now)).

End Routes.

(** ** The observing middleware *)

(** What the middleware reads off a request.  [route_path] is
    [req.route?.path]: Express sets [req.route] when it enters a route, so
    in a [router.use] middleware, which runs before any route is matched,
    it is [None]. *)
Record Request := {
  method : string;
  route_path : option jsstring;
  path : jsstring;
  originalUrl : jsstring;
  url : jsstring }.

(** [a || b] on strings: the empty string is falsy. *)
Definition or_else (a b : jsstring) : jsstring :=
  if truthy (JString a) then a else b.

(** [req.route?.path || req.path || req.originalUrl || req.url] *)
Definition routeLabel (req : Request) : jsstring :=
  let rest := or_else (path req) (or_else (originalUrl req) (url req)) in
  match route_path req with
  | Some p => or_else p rest
  | None => rest
  end.

(** The listener of [res.on('finish', ...)]: [String(res.statusCode)]
    labels the request counter, then the timer is stopped. *)
Definition on_finish (req : Request) (res : Response) (elapsed : N)
    (m : Metrics) : Metrics :=
  observe_duration (method req) (routeLabel req) elapsed
    (inc_httpRequests (method req) (routeLabel req) (pretty (statusCode res)) m).

(** How a response ends: it is sent to the end, and ['finish'] is
    emitted [elapsed] nanoseconds after the middleware ran; or the
    connection closes before that, and ['finish'] is never emitted. *)
Inductive Ending : Type :=
| Finished (elapsed : N)
| Closed.

(** The [router.use] middleware around the rest of the chain [next]: the
    label is fixed and the timer started on entry; the listener is
    registered for ['finish'] only, so it runs when the response is
    finished and not when the connection closes first. *)
Definition observe {S} (req : Request) (ending : Ending)
    (next : Handler S Response) : Handler S Response :=
  res ← next;
  match ending with
  | Finished elapsed => update_metrics (on_finish req res elapsed)
  | Closed => mret tt
  end;;
  mret res.

(** The routes of the router, with what each handler reads from the
    request.  [Elsewhere] is a request none of them matches: the chain
    continues outside the router, which ends it with some response. *)
Inductive Route : Type :=
| GET_quote
| POST_quote (body : option Submission)
| GET_quotes
| GET_stats
| DELETE_quote (param : jsstring)
| GET_metrics
| GET_health (now : string)
| Elsewhere (res : Response).

Section Router.

Context {S : Type} {db : QuoteDb S} {profanity : ProfanityFilter}
        {registry : Registry} {counters : CounterGet}.

Definition dispatch (r : Route) : Handler S Response :=
  match r with
  | GET_quote => get_quote
  | POST_quote body => post_quote body
  | GET_quotes => get_quotes
  | GET_stats => get_stats
  | DELETE_quote param => delete_quote param
  | GET_metrics => get_metrics
  | GET_health now => get_health now
  | Elsewhere res => mret res
  end.

(** One request through the router, however its response ends. *)
Definition handle (req : Request) (r : Route) (ending : Ending)
  : Handler S Response :=
  observe req ending (dispatch r).

(** One request through the router whose response is sent to the end. *)
Definition serve (req : Request) (r : Route) (elapsed : N)
  : Handler S Response :=
  handle req r (Finished elapsed).

End Router.

(** ** An in-memory quote store *)

Module MemDb.

(** Modelled from the spec: the module [./db] is not among the sources.
    The store holds the live quotes in creation order, hands out
    identifiers from a counter that only grows, stamps quotes with its
    clock, and picks random quotes by the draws it is given. *)
Record t := {
  quotes : list Quote;
  nextId : Z;
  clock : N;
  draws : list nat }.

Definition empty : t :=
  {| quotes := []; nextId := 1; clock := 0; draws := [] |}.

(** Modelled from the spec: [addQuote] creates a record with a fresh
    identifier, [views = 0] and the current timestamp. *)
Definition addQuote (text author : jsstring) (s : t) : outcome Quote * t :=
  let q := {| q_id := nextId s; q_text := text; q_author := author;
              q_views := 0; q_createdAt := clock s |} in
  (Resolved q,
   {| quotes := quotes s ++ [q]; nextId := nextId s + 1;
      clock := N.succ (clock s); draws := draws s |}).

Definition view (q : Quote) : Quote :=
  {| q_id := q_id q; q_text := q_text q; q_author := q_author q;
     q_views := q_views q + 1; q_createdAt := q_createdAt q |}.

(** Modelled from the spec: [getRandomQuote] returns none on an empty
    store, and otherwise one of the live quotes, its views counted up
    by one. *)
Definition getRandomQuote (s : t) : outcome (option Quote) * t :=
  match quotes s with
  | [] => (Resolved None, s)
  | _ :: _ =>
      let i := (hd 0%nat (draws s) mod List.length (quotes s))%nat in
      match quotes s !! i with
      | None => (Resolved None, s)
      | Some q =>
          (Resolved (Some (view q)),
           {| quotes := <[i := view q]> (quotes s); nextId := nextId s;
              clock := clock s; draws := tl (draws s) |})
      end
  end.

(** Modelled from the spec: [getAllQuotes] lists the live quotes by
    creation time. *)
Definition getAllQuotes (s : t) : outcome (list Quote) * t :=
  (Resolved (quotes s), s).

Definition has_id (id : Z) (q : Quote) : bool := q_id q =? id.

(** Modelled from the spec: [deleteQuote] removes the quote if present
    and tells whether it did. *)
Definition deleteQuote (id : Z) (s : t) : outcome bool * t :=
  if existsb (has_id id) (quotes s) then
    (Resolved true,
     {| quotes := List.filter (fun q => negb (has_id id q)) (quotes s);
        nextId := nextId s; clock := clock s; draws := draws s |})
  else (Resolved false, s).

(** Modelled from the spec: the id of a quote is an integer, so a number
    that is none (an infinity) names no quote. *)
Definition deleteNumber (id : Number.t) (s : t) : outcome bool * t :=
  match id with
  | Number.Finite z => deleteQuote z s
  | _ => (Resolved false, s)
  end.

(** Modelled from the spec: [getStats] counts the live quotes and sums
    their views. *)
Definition getStats (s : t) : outcome Stats * t :=
  (Resolved {| totalQuotes := Z.of_nat (List.length (quotes s));
               totalViews := fold_right Z.add 0 (map q_views (quotes s)) |},
   s).

(** The invariant of the store: identifiers are positive, every live
    one was handed out already, and no two live quotes share one. *)
Definition wf (s : t) : Prop :=
  0 < nextId s
  /\ Forall (fun q => 0 < q_id q < nextId s) (quotes s)
  /\ NoDup (map q_id (quotes s)).

End MemDb.

#[global] Instance memdb : QuoteDb MemDb.t := {|
  getRandomQuote := MemDb.getRandomQuote;
  addQuote := MemDb.addQuote;
  getAllQuotes := MemDb.getAllQuotes;
  deleteQuote := MemDb.deleteNumber;
  getStats := MemDb.getStats |}.

(** A database whose storage is unavailable: every call rejects. *)
Definition msg_unavailable : string := "SQLITE_CANTOPEN: unable to open database file".

#[global] Instance offline_db : QuoteDb unit := {|
  getRandomQuote := fun s => (Rejected msg_unavailable, s);
  addQuote := fun _ _ s => (Rejected msg_unavailable, s);
  getAllQuotes := fun s => (Rejected msg_unavailable, s);
  deleteQuote := fun _ s => (Rejected msg_unavailable, s);
  getStats := fun s => (Rejected msg_unavailable, s) |}.

(** ** A word-list profanity filter *)

Module WordFilter.

Definition lower (c : JsString.code_unit) : JsString.code_unit :=
  if ((65 <=? c) && (c <=? 90))%N then (c + 32)%N else c.

Fixpoint starts_with (w s : jsstring) : bool :=
  match w, s with
  | [], _ => true
  | _ :: _, [] => false
  | a :: w', b :: s' => (a =? b)%N && starts_with w' s'
  end.

Fixpoint contains (w s : jsstring) : bool :=
  starts_with w s ||
  match s with
  | [] => false
  | _ :: s' => contains w s'
  end.

(** Modelled from the spec: the module [./profanityFilter] is not among
    the sources.  A text is disallowed when, case-insensitively, it
    contains a word of the list. *)
Definition isProfane (words : list jsstring) (s : jsstring) : bool :=
  existsb (fun w => contains w (map lower s)) words.

(** Modelled from the spec: both fields are checked, and the reason
    does not disclose the word. *)
Definition validateQuote (words : list jsstring) (text author : jsstring)
  : Validation :=
  if isProfane words text || isProfane words author then
    {| isValid := false;
       message := Some "Quote contains inappropriate language" |}
  else {| isValid := true; message := None |}.

End WordFilter.

#[global] Instance word_filter : ProfanityFilter :=
  WordFilter.validateQuote [JsString.of_ascii "damn"].

#[global] Instance counter_now : CounterGet := fun n => Resolved n.

Definition counter_pending : CounterGet := fun _ =>
  Rejected "Cannot read properties of undefined (reading '0')".

(** A registry that renders the three plain counters. *)
#[global] Instance plain_registry : Registry := fun m =>
  "quotes_served_total " +:+ pretty (quotesServedCounter m) +:+
  " quotes_added_total " +:+ pretty (quotesAddedCounter m) +:+
  " profanity_blocked_total " +:+ pretty (profanityBlockedCounter m).

Definition no_metrics : Metrics :=
  {| quotesServedCounter := 0; quotesAddedCounter := 0;
     profanityBlockedCounter := 0; httpRequestsCounter := ∅;
     requestDurationHistogram := ∅ |}.

(** A freshly started process over the database state [s]. *)
Definition boot {S} (s : S) : World S :=
  {| store := s; metrics := no_metrics; calls := [] |}.

(** ** The validation pipeline as a list of checks *)

Inductive Check : Type :=
| Required | StringTyped | NonBlank | TextLength | AuthorLength | Moderation.

Definition is_moderation (c : Check) : bool :=
  match c with Moderation => true | _ => false end.

Section Pipeline.

Context {profanity : ProfanityFilter}.

(** The condition under which each [if] of the handler lets a
    submission through. *)
Definition passes (c : Check) (sub : Submission) : bool :=
  let t := as_string (text sub) in
  let a := as_string (author sub) in
  match c with
  | Required => truthy (text sub) && truthy (author sub)
  | StringTyped => is_string (text sub) && is_string (author sub)
  | NonBlank => negb (JsString.length (JsString.trim t) =? 0)
                && negb (JsString.length (JsString.trim a) =? 0)
  | TextLength => JsString.length t <=? 1000
  | AuthorLength => JsString.length a <=? 100
  | Moderation => isValid (validateQuote t a)
  end.

(** The response each check answers with when it fails. *)
Definition rejection (c : Check) (sub : Submission) : Response :=
  match c with
  | Required => validation_error msg_required
  | StringTyped => validation_error msg_strings
  | NonBlank => validation_error msg_empty
  | TextLength => validation_error msg_text_length
  | AuthorLength => validation_error msg_author_length
  | Moderation =>
      json 400 (Failure "Profanity detected"
                  (message (validateQuote (as_string (text sub))
                                          (as_string (author sub)))))
  end.

Definition pipeline : list Check :=
  [Required; StringTyped; NonBlank; TextLength; AuthorLength; Moderation].

Definition first_failure (sub : Submission) : option Check :=
  List.find (fun c => negb (passes c sub)) pipeline.

(** The first check as the specification words it: both fields present
    and non-null. *)
Definition present (v : jsval) : bool :=
  match v with JUndefined | JNull => false | _ => true end.

Definition spec_passes (c : Check) (sub : Submission) : bool :=
  match c with
  | Required => present (text sub) && present (author sub)
  | _ => passes c sub
  end.

Definition spec_first_failure (sub : Submission) : option Check :=
  List.find (fun c => negb (spec_passes c sub)) pipeline.

(** The requests the moderation filter turns down. *)
Definition moderation_rejects (r : Route) : bool :=
  match r with
  | POST_quote (Some sub) =>
      match first_failure sub with
      | Some c => is_moderation c
      | None => false
      end
  | _ => false
  end.

End Pipeline.

(** ** Integer prefixes of an id parameter *)

(** Every code unit is a decimal digit. *)
Definition all_digits (ds : jsstring) : bool :=
  forallb (fun c => bool_decide (is_Some (ParseInt.digit c))) ds.

(** The number a string of decimal digits denotes. *)
Definition decimal_value (ds : jsstring) : Z :=
  fold_left (fun acc c => 10 * acc + (Z.of_N c - 48)) ds 0.

(** The string goes on with a decimal digit. *)
Definition starts_with_digit (s : jsstring) : bool :=
  match s with
  | c :: _ => bool_decide (is_Some (ParseInt.digit c))
  | [] => false
  end.

(** A response with [success: false]. *)
Definition is_failure (res : Response) : bool :=
  match payload res with Failure _ _ => true | _ => false end.

(** A response that hands out a quote of [GET /quote]. *)
Definition serves_quote (res : Response) : bool :=
  match payload res with QuoteServed _ => true | _ => false end.

Definition not_found : Response :=
  json 404 (Failure "No quotes found in database" None).

(** ** One request, case by case *)

Section Cases.

Context {S : Type} {db : QuoteDb S} {profanity : ProfanityFilter}
        {registry : Registry} {counters : CounterGet}.

(** [handled w r res s' m' made]: on the world [w] the route [r] is
    answered [res], leaves the database in [s'] and the metrics at [m'],
    and makes the calls [made].  One rule for each way through a
    handler. *)
Inductive handled (w : World S)
  : Route -> Response -> S -> Metrics -> list Call -> Prop :=
| quote_served q s' :
    getRandomQuote (store w) = (Resolved (Some q), s') ->
    handled w GET_quote (json 200 (QuoteServed (quote_data q))) s'
      (inc_quotesServed (metrics w)) [Call_getRandomQuote]
| quote_none s' :
    getRandomQuote (store w) = (Resolved None, s') ->
    handled w GET_quote not_found s' (metrics w) [Call_getRandomQuote]
| quote_failed e s' :
    getRandomQuote (store w) = (Rejected e, s') ->
    handled w GET_quote (json 500 (Failure "Failed to fetch quote" (Some e)))
      s' (metrics w) [Call_getRandomQuote]
| submit_no_body :
    handled w (POST_quote None)
      (json 500 (Failure "Failed to add quote" (Some msg_no_body)))
      (store w) (metrics w) []
| submit_invalid sub c :
    first_failure sub = Some c -> is_moderation c = false ->
    handled w (POST_quote (Some sub)) (rejection c sub)
      (store w) (metrics w) []
| submit_blocked sub :
    first_failure sub = Some Moderation ->
    handled w (POST_quote (Some sub)) (rejection Moderation sub)
      (store w) (inc_profanityBlocked (metrics w))
      [Call_validateQuote (as_string (text sub)) (as_string (author sub))]
| submit_added sub q s' :
    first_failure sub = None ->
    addQuote (JsString.trim (as_string (text sub)))
             (JsString.trim (as_string (author sub))) (store w)
    = (Resolved q, s') ->
    handled w (POST_quote (Some sub))
      (json 201 (QuoteAdded "Quote added successfully" (quote_data q)))
      s' (inc_quotesAdded (metrics w))
      [Call_validateQuote (as_string (text sub)) (as_string (author sub));
       Call_addQuote (JsString.trim (as_string (text sub)))
                     (JsString.trim (as_string (author sub)))]
| submit_failed sub e s' :
    first_failure sub = None ->
    addQuote (JsString.trim (as_string (text sub)))
             (JsString.trim (as_string (author sub))) (store w)
    = (Rejected e, s') ->
    handled w (POST_quote (Some sub))
      (json 500 (Failure "Failed to add quote" (Some e)))
      s' (metrics w)
      [Call_validateQuote (as_string (text sub)) (as_string (author sub));
       Call_addQuote (JsString.trim (as_string (text sub)))
                     (JsString.trim (as_string (author sub)))]
| quotes_listed quotes s' :
    getAllQuotes (store w) = (Resolved quotes, s') ->
    handled w GET_quotes (json 200 (QuoteList quotes)) s' (metrics w)
      [Call_getAllQuotes]
| quotes_failed e s' :
    getAllQuotes (store w) = (Rejected e, s') ->
    handled w GET_quotes
      (json 500 (Failure "Failed to fetch quotes" (Some e))) s' (metrics w)
      [Call_getAllQuotes]
| stats_reported stats s' added blocked :
    getStats (store w) = (Resolved stats, s') ->
    counter_get (quotesAddedCounter (metrics w)) = Resolved added ->
    counter_get (profanityBlockedCounter (metrics w)) = Resolved blocked ->
    handled w GET_stats
      (json 200 (StatsReport (totalQuotes stats) (totalViews stats)
                             added blocked))
      s' (metrics w) [Call_getStats]
| stats_failed e s' :
    getStats (store w) = (Rejected e, s') ->
    handled w GET_stats
      (json 500 (Failure "Failed to fetch statistics" (Some e)))
      s' (metrics w) [Call_getStats]
| stats_unread stats s' e :
    getStats (store w) = (Resolved stats, s') ->
    (counter_get (quotesAddedCounter (metrics w)) = Rejected e
     \/ (exists added,
           counter_get (quotesAddedCounter (metrics w)) = Resolved added)
        /\ counter_get (profanityBlockedCounter (metrics w)) = Rejected e) ->
    handled w GET_stats
      (json 500 (Failure "Failed to fetch statistics" (Some e)))
      s' (metrics w) [Call_getStats]
| delete_bad_id param :
    Number.isNaN (ParseInt.parseInt param)
    || Number.le_zero (ParseInt.parseInt param) = true ->
    handled w (DELETE_quote param) (validation_error msg_bad_id)
      (store w) (metrics w) []
| delete_done param id s' :
    ParseInt.parseInt param = id -> Number.positive id ->
    deleteQuote id (store w) = (Resolved true, s') ->
    handled w (DELETE_quote param)
      (json 200 (QuoteDeleted "Quote deleted successfully"))
      s' (metrics w) [Call_deleteQuote id]
| delete_missing param id s' :
    ParseInt.parseInt param = id -> Number.positive id ->
    deleteQuote id (store w) = (Resolved false, s') ->
    handled w (DELETE_quote param)
      (json 404 (Failure "Not Found"
         (Some ("Quote with id " +:+ Number.toString id
                +:+ " does not exist"))))
      s' (metrics w) [Call_deleteQuote id]
| delete_failed param id e s' :
    ParseInt.parseInt param = id -> Number.positive id ->
    deleteQuote id (store w) = (Rejected e, s') ->
    handled w (DELETE_quote param)
      (json 500 (Failure "Failed to delete quote" (Some e)))
      s' (metrics w) [Call_deleteQuote id]
| metrics_rendered :
    handled w GET_metrics
      (json 200 (MetricsText (register_metrics (metrics w))))
      (store w) (metrics w) []
| health_reported now :
    handled w (GET_health now) (json 200 (Healthy now))
      (store w) (metrics w) []
| passed_on res :
    handled w (Elsewhere res) res (store w) (metrics w) [].


(** Requests handled one after the other, each with the route it takes
    and the way its response ends; the responses in order. *)
Fixpoint handle_all (reqs : list (Request * Route * Ending))
  : Handler S (list Response) :=
  match reqs with
  | [] => mret []
  | (req, r, ending) :: rest =>
      res ← handle req r ending;
      ress ← handle_all rest;
      mret (res :: ress)
  end.

End Cases.

(** ** Reading the counters off the responses *)

(** Whether the response went out, and the duration sampled when it
    did. *)
Definition finished (ending : Ending) : bool :=
  match ending with Finished _ => true | Closed => false end.

Definition sampled (ending : Ending) : list N :=
  match ending with Finished elapsed => [elapsed] | Closed => [] end.

(** A [GET /quote] answered 200. *)
Definition counts_served (r : Route) (res : Response) : bool :=
  match r with
  | GET_quote => (statusCode res =? 200)%N
  | _ => false
  end.

(** A [POST /quote] answered 201. *)
Definition counts_added (r : Route) (res : Response) : bool :=
  match r with
  | POST_quote _ => (statusCode res =? 201)%N
  | _ => false
  end.

(** A [POST /quote] answered with the error "Profanity detected". *)
Definition counts_blocked (r : Route) (res : Response) : bool :=
  match r, payload res with
  | POST_quote _, Failure e _ => bool_decide (e = "Profanity detected")
  | _, _ => false
  end.


(** The counter cell a request with its response is counted in, and the
    histogram cell it is sampled in. *)
Definition counter_cell (req : Request) (res : Response)
  : string * jsstring * string :=
  (method req, routeLabel req, pretty (statusCode res)).

Definition histogram_cell (req : Request) : string * jsstring :=
  (method req, routeLabel req).

(** A call that goes to the database. *)
Definition is_db_call (c : Call) : bool :=
  match c with Call_validateQuote _ _ => false | _ => true end.


(** A string as it is stored: no white space at either end, and between
    one and [limit] code units. *)
Definition clean (limit : Z) (s : jsstring) : Prop :=
  0 < JsString.length s <= limit
  /\ (forall c, head s = Some c -> JsString.is_white_space c = false)
  /\ (forall c, last s = Some c -> JsString.is_white_space c = false).

(** ** Sample requests *)

Definition ascii_val (s : string) : jsval := JString (JsString.of_ascii s).

(** A profane text of 1006 code units. *)
Definition long_profane : Submission :=
  {| text := JString (repeat 120%N 1001 ++ JsString.of_ascii " damn");
     author := ascii_val "X" |}.

(** An empty text with an author. *)
Definition empty_text : Submission :=
  {| text := JString []; author := ascii_val "A" |}.

Definition damn_test : Submission :=
  {| text := ascii_val "This is a damn test"; author := ascii_val "X" |}.

Definition no_author : Submission :=
  {| text := ascii_val "Only text, no author"; author := JUndefined |}.

Definition stay_hungry : jsstring :=
  JsString.of_ascii "  Stay hungry, stay foolish. ".

Definition steve_jobs : jsstring := JsString.of_ascii "Steve Jobs".

Definition five : jsstring := JsString.of_ascii "5".


Definition three_spaces : jsstring := JsString.of_ascii "   ".

(** A text of exactly 1000 code units. *)
Definition thousand_x : jsstring := repeat 120%N 1000.


(** A health check, as a monitor sends it. *)
Definition health_check : Request :=
  {| method := "GET"; route_path := None;
     path := JsString.of_ascii "/health";
     originalUrl := JsString.of_ascii "/health";
     url := JsString.of_ascii "/health" |}.

(** The digits of [2 ^ 53 + 1], and an id parameter that begins with
    them. *)
Definition beyond_safe_digits : jsstring :=
  JsString.of_ascii "9007199254740993".

Definition beyond_safe : jsstring :=
  beyond_safe_digits ++ JsString.of_ascii "abc".

(** * Properties *)

(** Unfolds the handler monad so that a handler applied to a world
    computes. *)
Ltac run_handler :=
  unfold get_quote, post_quote, get_quotes, get_stats, delete_quote,
    get_metrics, get_health, observe, try_catch, throw, await_db,
    update_metrics, read_metrics, read_counter, call_validateQuote, log_call,
    mbind, handler_bind, mret, handler_ret;
  simpl.

(** ** The order of the checks of [POST /quote] *)

Section PostQuote.

Context {S : Type} {db : QuoteDb S} {profanity : ProfanityFilter}.

(** A submission a structural check rejects is answered by that check,
    and nothing else happens. *)
Lemma post_quote_structural sub (w : World S) c :
  first_failure sub = Some c -> is_moderation c = false ->
  post_quote (Some sub) w = (Resolved (rejection c sub), w).
Proof.
  destruct sub as [t a]. unfold first_failure, pipeline, passes. simpl.
  intros Hf Hc. run_handler.
  destruct (truthy t && truthy a) eqn:E1; simpl in Hf.
  2:{ injection Hf as <-. apply andb_false_iff in E1 as [->| ->]; simpl;
      rewrite ?orb_true_r; reflexivity. }
  apply andb_true_iff in E1 as [-> ->]. simpl.
  destruct (is_string t && is_string a) eqn:E2; simpl in Hf.
  2:{ injection Hf as <-. apply andb_false_iff in E2 as [->| ->]; simpl;
      rewrite ?orb_true_r; reflexivity. }
  apply andb_true_iff in E2 as [-> ->]. simpl.
  destruct (JsString.length (JsString.trim (as_string t)) =? 0) eqn:E3; simpl in Hf.
  { injection Hf as <-. reflexivity. }
  destruct (JsString.length (JsString.trim (as_string a)) =? 0) eqn:E4; simpl in Hf.
  { injection Hf as <-. reflexivity. }
  simpl.
  rewrite Z.gtb_ltb, Z.ltb_antisym.
  destruct (JsString.length (as_string t) <=? 1000) eqn:E5; simpl in Hf |- *.
  2:{ injection Hf as <-. reflexivity. }
  rewrite Z.gtb_ltb, Z.ltb_antisym.
  destruct (JsString.length (as_string a) <=? 100) eqn:E6; simpl in Hf |- *.
  2:{ injection Hf as <-. reflexivity. }
  destruct (isValid (validateQuote (as_string t) (as_string a))); simpl in Hf.
  - discriminate.
  - injection Hf as <-. discriminate.
Qed.

(** Past the five structural checks the handler asks the filter. *)
Lemma post_quote_filtered sub (w : World S) :
  passes Required sub = true -> passes StringTyped sub = true ->
  passes NonBlank sub = true -> passes TextLength sub = true ->
  passes AuthorLength sub = true ->
  let t := as_string (text sub) in
  let a := as_string (author sub) in
  let asked := calls w ++ [Call_validateQuote t a] in
  post_quote (Some sub) w =
    if isValid (validateQuote t a) then
      match addQuote (JsString.trim t) (JsString.trim a) (store w) with
      | (Resolved q, s') =>
          (Resolved (json 201 (QuoteAdded "Quote added successfully"
                                          (quote_data q))),
           {| store := s'; metrics := inc_quotesAdded (metrics w);
              calls := asked ++ [Call_addQuote (JsString.trim t)
                                               (JsString.trim a)] |})
      | (Rejected e, s') =>
          (Resolved (json 500 (Failure "Failed to add quote" (Some e))),
           {| store := s'; metrics := metrics w;
              calls := asked ++ [Call_addQuote (JsString.trim t)
                                               (JsString.trim a)] |})
      end
    else
      (Resolved (rejection Moderation sub),
       {| store := store w; metrics := inc_profanityBlocked (metrics w);
          calls := asked |}).
Proof.
  destruct sub as [t a]. unfold passes. simpl.
  intros [Ht Ha]%andb_true_iff [Hst Hsa]%andb_true_iff
         [Hbt Hba]%andb_true_iff Hlt Hla.
  run_handler. rewrite Ht, Ha, Hst, Hsa. simpl.
  apply negb_true_iff in Hbt, Hba. rewrite Hbt, Hba. simpl.
  rewrite !Z.gtb_ltb, !Z.ltb_antisym, Hlt, Hla. simpl.
  destruct (isValid (validateQuote (as_string t) (as_string a))); simpl.
  - destruct (addQuote _ _ (store w)) as [[q|e] s']; reflexivity.
  - reflexivity.
Qed.

(** [first_failure] read back as the verdicts of the single checks. *)
Lemma first_failure_moderation sub :
  first_failure sub = Some Moderation ->
  passes Required sub = true /\ passes StringTyped sub = true /\
  passes NonBlank sub = true /\ passes TextLength sub = true /\
  passes AuthorLength sub = true /\ passes Moderation sub = false.
Proof.
  unfold first_failure, pipeline. cbn [List.find].
  repeat match goal with
         | |- context [negb (passes ?c sub)] =>
             destruct (passes c sub); cbn [negb]
         end;
    intros Hf; try discriminate Hf; auto 10.
Qed.

Lemma first_failure_none sub :
  first_failure sub = None ->
  passes Required sub = true /\ passes StringTyped sub = true /\
  passes NonBlank sub = true /\ passes TextLength sub = true /\
  passes AuthorLength sub = true /\ passes Moderation sub = true.
Proof.
  unfold first_failure, pipeline. cbn [List.find].
  repeat match goal with
         | |- context [negb (passes ?c sub)] =>
             destruct (passes c sub); cbn [negb]
         end;
    intros Hf; try discriminate Hf; auto 10.
Qed.

Lemma post_quote_moderation sub (w : World S) :
  first_failure sub = Some Moderation ->
  post_quote (Some sub) w =
    (Resolved (rejection Moderation sub),
     {| store := store w; metrics := inc_profanityBlocked (metrics w);
        calls := calls w ++ [Call_validateQuote (as_string (text sub))
                                                (as_string (author sub))] |}).
Proof.
  intros (H1 & H2 & H3 & H4 & H5 & H6)%first_failure_moderation.
  rewrite post_quote_filtered by assumption.
  unfold passes in H6. simpl in H6. by rewrite H6.
Qed.

(** The responses of the six checks are pairwise different: a response
    names the check that failed. *)
Lemma rejection_inj sub c c' :
  rejection c sub = rejection c' sub -> c = c'.
Proof. destruct c, c'; simpl; intros H; try reflexivity; discriminate H. Qed.

(** C1 (as amended).  The handler answers a rejected submission with
    the response of the first check that fails in the order
    [Required] (both fields truthy), [StringTyped], [NonBlank] (trimmed
    fields non-empty), [TextLength] (the untrimmed text is at most 1000
    code units), [AuthorLength] (at most 100), [Moderation]; no other
    check's response is given; a structural failure changes nothing and
    the filter is not consulted; an over-length submission is never
    rejected for profanity, and is rejected for its length once the
    first three checks pass. *)
Theorem post_quote_first_failure_wins sub (w : World S) c :
  first_failure sub = Some c ->
  fst (post_quote (Some sub) w) = Resolved (rejection c sub)
  /\ (forall c', fst (post_quote (Some sub) w) = Resolved (rejection c' sub) ->
                 c' = c)
  /\ (is_moderation c = false -> snd (post_quote (Some sub) w) = w)
  /\ (passes TextLength sub = false \/ passes AuthorLength sub = false ->
      is_moderation c = false
      /\ (passes Required sub = true -> passes StringTyped sub = true ->
          passes NonBlank sub = true ->
          c = if passes TextLength sub then AuthorLength else TextLength)).
Proof.
  intros Hf.
  assert (Hres : fst (post_quote (Some sub) w) = Resolved (rejection c sub)).
  { destruct (is_moderation c) eqn:Hc.
    - destruct c; try discriminate Hc. by rewrite post_quote_moderation.
    - by rewrite (post_quote_structural sub w c). }
  split; [exact Hres|]. split; [|split].
  - intros c' Hc'. rewrite Hres in Hc'. injection Hc' as Hc'.
    symmetry. by apply (rejection_inj sub).
  - intros Hc. by rewrite (post_quote_structural sub w c).
  - intros Hlong. split.
    + destruct c; try reflexivity.
      apply first_failure_moderation in Hf as (_ & _ & _ & H4 & H5 & _).
      destruct Hlong; congruence.
    + intros H1 H2 H3. revert Hf. unfold first_failure, pipeline.
      cbn [List.find]. rewrite H1, H2, H3. cbn [negb].
      destruct (passes TextLength sub); cbn [negb].
      * destruct Hlong as [?|H5]; [discriminate|]. rewrite H5. cbn [negb].
        congruence.
      * congruence.
Qed.

End PostQuote.

(** ** What each handler does, by the answer of the database *)

Section Handlers.

Context {S : Type} {db : QuoteDb S} {profanity : ProfanityFilter}
        {registry : Registry} {counters : CounterGet}.

Lemma get_quote_run (w : World S) :
  get_quote w =
    let asked := calls w ++ [Call_getRandomQuote] in
    match getRandomQuote (store w) with
    | (Resolved None, s') =>
        (Resolved (json 404 (Failure "No quotes found in database" None)),
         {| store := s'; metrics := metrics w; calls := asked |})
    | (Resolved (Some q), s') =>
        (Resolved (json 200 (QuoteServed (quote_data q))),
         {| store := s'; metrics := inc_quotesServed (metrics w);
            calls := asked |})
    | (Rejected e, s') =>
        (Resolved (json 500 (Failure "Failed to fetch quote" (Some e))),
         {| store := s'; metrics := metrics w; calls := asked |})
    end.
Proof.
  run_handler. destruct (getRandomQuote (store w)) as [[[q|]|e] s']; reflexivity.
Qed.

Lemma get_quotes_run (w : World S) :
  get_quotes w =
    let asked := calls w ++ [Call_getAllQuotes] in
    match getAllQuotes (store w) with
    | (Resolved quotes, s') =>
        (Resolved (json 200 (QuoteList quotes)),
         {| store := s'; metrics := metrics w; calls := asked |})
    | (Rejected e, s') =>
        (Resolved (json 500 (Failure "Failed to fetch quotes" (Some e))),
         {| store := s'; metrics := metrics w; calls := asked |})
    end.
Proof.
  run_handler. destruct (getAllQuotes (store w)) as [[q|e] s']; reflexivity.
Qed.

Lemma get_stats_run (w : World S) :
  get_stats w =
    let asked := calls w ++ [Call_getStats] in
    let failed e s' :=
      (Resolved (json 500 (Failure "Failed to fetch statistics" (Some e))),
       {| store := s'; metrics := metrics w; calls := asked |}) in
    match getStats (store w) with
    | (Resolved stats, s') =>
        match counter_get (quotesAddedCounter (metrics w)),
              counter_get (profanityBlockedCounter (metrics w)) with
        | Resolved added, Resolved blocked =>
            (Resolved (json 200 (StatsReport (totalQuotes stats)
                                   (totalViews stats) added blocked)),
             {| store := s'; metrics := metrics w; calls := asked |})
        | Rejected e, _ => failed e s'
        | Resolved _, Rejected e => failed e s'
        end
    | (Rejected e, s') => failed e s'
    end.
Proof.
  run_handler. destruct (getStats (store w)) as [[q|e] s']; [|reflexivity].
  simpl. destruct (counter_get (quotesAddedCounter _)); [|reflexivity].
  simpl. destruct (counter_get (profanityBlockedCounter _)); reflexivity.
Qed.

(** The statistics handler answers, asks the database once and touches
    no metric. *)
Lemma get_stats_frame (w : World S) :
  exists res,
    get_stats w
    = (Resolved res,
       {| store := snd (getStats (store w)); metrics := metrics w;
          calls := calls w ++ [Call_getStats] |}).
Proof.
  rewrite get_stats_run. destruct (getStats (store w)) as [[q|e] s']; simpl.
  - destruct (counter_get (quotesAddedCounter (metrics w))),
             (counter_get (profanityBlockedCounter (metrics w))); eauto.
  - eauto.
Qed.

Lemma delete_quote_run param (w : World S) :
  delete_quote param w =
    let id := ParseInt.parseInt param in
    if Number.isNaN id || Number.le_zero id then
      (Resolved (validation_error msg_bad_id), w)
    else
      let asked := calls w ++ [Call_deleteQuote id] in
      match deleteQuote id (store w) with
      | (Resolved true, s') =>
          (Resolved (json 200 (QuoteDeleted "Quote deleted successfully")),
           {| store := s'; metrics := metrics w; calls := asked |})
      | (Resolved false, s') =>
          (Resolved (json 404 (Failure "Not Found"
             (Some ("Quote with id " +:+ Number.toString id
                    +:+ " does not exist")))),
           {| store := s'; metrics := metrics w; calls := asked |})
      | (Rejected e, s') =>
          (Resolved (json 500 (Failure "Failed to delete quote" (Some e))),
           {| store := s'; metrics := metrics w; calls := asked |})
      end.
Proof.
  run_handler.
  destruct (Number.isNaN (ParseInt.parseInt param)
            || Number.le_zero (ParseInt.parseInt param)); [reflexivity|].
  simpl.
  destruct (deleteQuote (ParseInt.parseInt param) (store w))
    as [[[]|e] s']; reflexivity.
Qed.

Lemma get_metrics_run (w : World S) :
  get_metrics w =
    (Resolved (json 200 (MetricsText (register_metrics (metrics w)))), w).
Proof. reflexivity. Qed.

Lemma post_quote_no_body (w : World S) :
  post_quote None w =
    (Resolved (json 500 (Failure "Failed to add quote" (Some msg_no_body))), w).
Proof. reflexivity. Qed.

(** Every route answers, and what it does to the metrics is one of four
    things: nothing, or one increment of the blocked, the added or the
    served counter, each in its own circumstances. *)
Lemma dispatch_metrics r (w : World S) :
  exists res w1,
    dispatch r w = (Resolved res, w1)
    /\ (metrics w1 = metrics w /\ moderation_rejects r = false
        /\ (r = GET_quote -> serves_quote res = false)
        \/ metrics w1 = inc_profanityBlocked (metrics w)
           /\ moderation_rejects r = true
        \/ metrics w1 = inc_quotesAdded (metrics w)
           /\ moderation_rejects r = false /\ r <> GET_quote
        \/ metrics w1 = inc_quotesServed (metrics w)
           /\ r = GET_quote /\ serves_quote res = true).
Proof.
  destruct r as [|[sub|]| | |param| |now|res]; cbn [dispatch moderation_rejects].
  - rewrite get_quote_run.
    destruct (getRandomQuote (store w)) as [[[q|]|e] s']; simpl;
      eexists _, _; (split; [reflexivity|]); simpl; auto 10.
  - destruct (first_failure sub) as [c|] eqn:Hf.
    + destruct (is_moderation c) eqn:Hc.
      * destruct c; try discriminate Hc.
        rewrite post_quote_moderation by assumption.
        eexists _, _. split; [reflexivity|]. simpl. auto.
      * rewrite (post_quote_structural sub w c) by assumption.
        eexists _, _. split; [reflexivity|]. left. by split.
    + apply first_failure_none in Hf as (H1 & H2 & H3 & H4 & H5 & H6).
      rewrite post_quote_filtered by assumption.
      unfold passes in H6. simpl in H6. rewrite H6.
      destruct (addQuote _ _ (store w)) as [[q|e] s'];
        eexists _, _; (split; [reflexivity|]); simpl.
      * right. right. left. by split.
      * left. by split.
  - rewrite post_quote_no_body. eexists _, _. split; [reflexivity|]. left.
    by split.
  - rewrite get_quotes_run.
    destruct (getAllQuotes (store w)) as [[q|e] s']; simpl;
      eexists _, _; (split; [reflexivity|]); left; by split.
  - destruct (get_stats_frame w) as [res ->].
    eexists _, _. split; [reflexivity|]. left. by split.
  - rewrite delete_quote_run. cbv zeta.
    destruct (Number.isNaN (ParseInt.parseInt param)
              || Number.le_zero (ParseInt.parseInt param)).
    { eexists _, _. split; [reflexivity|]. left. by split. }
    destruct (deleteQuote (ParseInt.parseInt param) (store w))
      as [[[]|e] s']; simpl;
      eexists _, _; (split; [reflexivity|]); left; by split.
  - rewrite get_metrics_run. eexists _, _. split; [reflexivity|]. left.
    by split.
  - eexists _, _. split; [reflexivity|]. left. by split.
  - eexists _, _. split; [reflexivity|]. left. by split.
Qed.

(** No handler touches the request counter or the duration histogram. *)
Lemma dispatch_answers r (w : World S) :
  exists res w1,
    dispatch r w = (Resolved res, w1)
    /\ httpRequestsCounter (metrics w1) = httpRequestsCounter (metrics w)
    /\ requestDurationHistogram (metrics w1)
       = requestDurationHistogram (metrics w).
Proof.
  destruct (dispatch_metrics r w) as (res & w1 & Hrun & Hm).
  exists res, w1. split; [done|].
  by destruct Hm as [(-> & _)|[(-> & _)|[(-> & _)|(-> & _)]]].
Qed.

(** C2.  A submission that a structural check or the moderation filter
    rejects is answered with status 400 and leaves the database as it
    was: among the calls the request makes there is no [addQuote], and
    the added-quotes counter stands. *)
Theorem rejected_submission_leaves_store sub (w : World S) c :
  first_failure sub = Some c ->
  exists res w' made,
    post_quote (Some sub) w = (Resolved res, w')
    /\ statusCode res = 400%N
    /\ store w' = store w
    /\ calls w' = calls w ++ made
    /\ (forall t a, Call_addQuote t a ∉ made)
    /\ quotesAddedCounter (metrics w') = quotesAddedCounter (metrics w).
Proof.
  intros Hf. destruct (is_moderation c) eqn:Hc.
  - destruct c; try discriminate Hc.
    rewrite post_quote_moderation by assumption.
    eexists _, _, [_]. repeat split; try reflexivity.
    intros t a [=]%list_elem_of_singleton.
  - rewrite (post_quote_structural sub w c) by assumption.
    exists (rejection c sub), w, []. rewrite app_nil_r.
    repeat split; try reflexivity.
    + by destruct c.
    + intros t a Hin. by apply not_elem_of_nil in Hin.
Qed.

(** C3.  Over all routes, the blocked counter goes up by one exactly on
    the submissions the moderation filter rejects and stands otherwise;
    a submission that fails a structural check changes nothing at all,
    so the filter is not called for it, while one that passes them is
    put to the filter once. *)
Theorem blocked_counter_counts_moderation r (w : World S) :
  let w' := snd (dispatch r w) in
  profanityBlockedCounter (metrics w')
  = (profanityBlockedCounter (metrics w)
     + (if moderation_rejects r then 1 else 0))%nat
  /\ (forall sub c, r = POST_quote (Some sub) -> first_failure sub = Some c ->
        if is_moderation c
        then calls w' = calls w ++ [Call_validateQuote (as_string (text sub))
                                                       (as_string (author sub))]
             /\ fst (dispatch r w) = Resolved (rejection Moderation sub)
        else w' = w).
Proof.
  cbv zeta. split.
  - destruct (dispatch_metrics r w) as (res & w1 & -> & Hm). cbn [snd].
    destruct Hm as [(-> & -> & _)|[(-> & ->)|[(-> & -> & _)|(-> & -> & _)]]];
      simpl; lia.
  - intros sub c -> Hf. simpl. destruct (is_moderation c) eqn:Hc.
    + destruct c; try discriminate Hc.
      rewrite post_quote_moderation by assumption. by split.
    + by rewrite (post_quote_structural sub w c).
Qed.

End Handlers.

(** ** Random quotes and the empty store *)

Lemma get_quote_empty (w : World MemDb.t) :
  MemDb.quotes (store w) = [] ->
  get_quote w = (Resolved not_found, log_call Call_getRandomQuote w).
Proof.
  intros He. rewrite get_quote_run. simpl. unfold MemDb.getRandomQuote.
  rewrite He. reflexivity.
Qed.

(** C4.  On an empty store [getRandomQuote] resolves to none and the
    handler answers "no quotes found" (404) without counting a served
    quote.  Whatever the database, that answer is given exactly for a
    resolved none, a rejected call is answered by a different response
    (500, "Failed to fetch quote", with the error's message), and the
    served counter goes up by one exactly when the response carries a
    quote; no other route moves it. *)
Theorem empty_store_is_not_a_fault :
  (forall w : World MemDb.t,
      MemDb.quotes (store w) = [] ->
      fst (MemDb.getRandomQuote (store w)) = Resolved None
      /\ get_quote w = (Resolved not_found, log_call Call_getRandomQuote w))
  /\ (forall S (db : QuoteDb S) (w : World S),
        let res := fst (get_quote w) in
        let served w := quotesServedCounter (metrics w) in
        match fst (getRandomQuote (store w)) with
        | Resolved None => res = Resolved not_found
        | Resolved (Some q) => res = Resolved (json 200 (QuoteServed (quote_data q)))
        | Rejected e =>
            res = Resolved (json 500 (Failure "Failed to fetch quote" (Some e)))
        end
        /\ (exists r, res = Resolved r
                     /\ served (snd (get_quote w))
                        = (served w + if serves_quote r then 1 else 0)%nat))
  /\ (forall e, not_found <> json 500 (Failure "Failed to fetch quote" (Some e)))
  /\ (forall S (db : QuoteDb S) (pf : ProfanityFilter) (rg : Registry)
             (cg : CounterGet) (r : Route) (w : World S),
        r <> GET_quote ->
        quotesServedCounter (metrics (snd (dispatch r w)))
        = quotesServedCounter (metrics w)).
Proof.
  split; [|split; [|split]].
  - intros w He. split; [|by apply get_quote_empty].
    unfold MemDb.getRandomQuote. by rewrite He.
  - intros S db w. cbv zeta. rewrite get_quote_run.
    destruct (getRandomQuote (store w)) as [[[q|]|e] s']; simpl;
      (split; [reflexivity|]); eexists; (split; [reflexivity|]); simpl; lia.
  - intros e. discriminate.
  - intros S db pf rg cg r w Hr.
    destruct (dispatch_metrics r w) as (res & w1 & -> & Hm). cbn [snd].
    by destruct Hm as [(-> & _)|[(-> & _)|[(-> & _)|(_ & -> & _)]]].
Qed.

(** ** Statistics *)

Lemma on_finish_plain_counters req res elapsed m :
  quotesServedCounter (on_finish req res elapsed m) = quotesServedCounter m
  /\ quotesAddedCounter (on_finish req res elapsed m) = quotesAddedCounter m
  /\ profanityBlockedCounter (on_finish req res elapsed m)
     = profanityBlockedCounter m.
Proof. by repeat split. Qed.

(** C7.  [getStats] leaves the store as it is and gives the same totals
    when asked again.  The [GET /stats] handler changes no metric over
    any database; over the store it changes neither the store nor any
    metric, two snapshots in a row are the same response, and with a
    synchronous counter read that response reports the number of live
    quotes, the sum of their views and the two counters.  A whole
    request, middleware included, leaves the store and the three plain
    counters alone and reports the same the next time. *)
Theorem stats_snapshot_read_only :
  (forall s : MemDb.t,
      snd (MemDb.getStats s) = s
      /\ fst (MemDb.getStats (snd (MemDb.getStats s))) = fst (MemDb.getStats s))
  /\ (forall S (db : QuoteDb S) (cg : CounterGet) (w : World S),
        metrics (snd (get_stats w)) = metrics w)
  /\ (forall (cg : CounterGet) (w : World MemDb.t),
        let w' := snd (get_stats w) in
        store w' = store w /\ metrics w' = metrics w
        /\ fst (get_stats w') = fst (get_stats w))
  /\ (forall w : World MemDb.t,
        fst (get_stats (counters := counter_now) w)
        = Resolved (json 200 (StatsReport
            (Z.of_nat (length (MemDb.quotes (store w))))
            (fold_right Z.add 0 (map q_views (MemDb.quotes (store w))))
            (quotesAddedCounter (metrics w))
            (profanityBlockedCounter (metrics w)))))
  /\ (forall (pf : ProfanityFilter) (rg : Registry) (cg : CounterGet)
             req e1 e2 (w : World MemDb.t),
        let w' := snd (serve req GET_stats e1 w) in
        store w' = store w
        /\ quotesServedCounter (metrics w') = quotesServedCounter (metrics w)
        /\ quotesAddedCounter (metrics w') = quotesAddedCounter (metrics w)
        /\ profanityBlockedCounter (metrics w')
           = profanityBlockedCounter (metrics w)
        /\ fst (serve req GET_stats e2 w') = fst (serve req GET_stats e1 w)).
Proof.
  split_and!.
  - intros s. by split.
  - intros S db cg w. by destruct (get_stats_frame w) as [res ->].
  - intros cg w. cbv zeta. destruct (get_stats_frame w) as [res Hrun].
    rewrite Hrun. cbn [snd fst store metrics]. split; [done|]. split; [done|].
    rewrite get_stats_run in Hrun. rewrite get_stats_run. simpl in *.
    destruct (counter_get (quotesAddedCounter (metrics w))),
             (counter_get (profanityBlockedCounter (metrics w)));
      injection Hrun as <-; reflexivity.
  - intros w. reflexivity.
  - intros pf rg cg req e1 e2 w. cbv zeta.
    unfold serve, handle, observe, mbind, handler_bind. cbn [dispatch].
    destruct (get_stats_frame w) as [res Hrun]. rewrite Hrun.
    cbn [snd fst store metrics update_metrics mret handler_ret].
    split_and!; try done.
    rewrite get_stats_run in Hrun. rewrite get_stats_run.
    cbn [store metrics] in *.
    rewrite !(proj2 (proj2 (on_finish_plain_counters _ _ _ _))).
    rewrite !(proj1 (proj2 (on_finish_plain_counters _ _ _ _))).
    simpl in *.
    destruct (counter_get (quotesAddedCounter (metrics w))),
             (counter_get (profanityBlockedCounter (metrics w)));
      injection Hrun as <-; reflexivity.
Qed.

(** ** Deleting *)

(** [deleteQuote] of the store never rejects; it answers whether the id
    was live, removes every quote of that id, and leaves a store without
    it untouched. *)
Lemma memdb_deleteQuote id (s : MemDb.t) :
  exists removed s',
    MemDb.deleteQuote id s = (Resolved removed, s')
    /\ (removed = true <-> (id ∈ map q_id (MemDb.quotes s)))
    /\ (id ∉ map q_id (MemDb.quotes s'))
    /\ (removed = false -> s' = s).
Proof.
  unfold MemDb.deleteQuote.
  destruct (existsb (MemDb.has_id id) (MemDb.quotes s)) eqn:He.
  - eexists _, _. split; [reflexivity|]. simpl. repeat split; try done.
    + intros _. apply existsb_exists in He as (q & Hq & Hid).
      apply list_elem_of_In, in_map_iff. exists q. split; [|done].
      unfold MemDb.has_id in Hid. lia.
    + rewrite list_elem_of_In, in_map_iff. intros (q & Hid & Hq).
      apply filter_In in Hq as [_ Hq]. unfold MemDb.has_id in Hq.
      apply negb_true_iff, Z.eqb_neq in Hq. done.
  - eexists _, _. split; [reflexivity|]. repeat split; try done.
    + rewrite list_elem_of_In, in_map_iff. intros (q & Hid & Hq).
      assert (existsb (MemDb.has_id id) (MemDb.quotes s) = true) as Ht.
      { apply existsb_exists. exists q. split; [done|].
        unfold MemDb.has_id. lia. }
      congruence.
    + rewrite list_elem_of_In, in_map_iff. intros (q & Hid & Hq).
      assert (existsb (MemDb.has_id id) (MemDb.quotes s) = true) as Ht.
      { apply existsb_exists. exists q. split; [done|].
        unfold MemDb.has_id. lia. }
      congruence.
Qed.

(** Up to 2^53 the Number value of an integer is that integer, and
    below 2^53 it prints as its decimal numeral. *)
Lemma of_integer_safe z :
  - 2 ^ 53 <= z <= 2 ^ 53 -> Number.of_integer z = Number.Finite z.
Proof.
  intros Hz. unfold Number.of_integer, Number.round.
  destruct (Z.ltb_spec z 0).
  - destruct (Z.ltb_spec (- z) (2 ^ 53)).
    + simpl. f_equal. lia.
    + assert (z = - 2 ^ 53) as -> by lia. reflexivity.
  - destruct (Z.ltb_spec z (2 ^ 53)); [done|].
    assert (z = 2 ^ 53) as -> by lia. reflexivity.
Qed.

Lemma toString_safe z :
  0 <= z < 2 ^ 53 -> Number.toString (Number.Finite z) = pretty z.
Proof.
  intros Hz. unfold Number.toString, Number.natural_toString.
  destruct (Z.ltb_spec z 0); [lia|].
  destruct (Z.ltb_spec z (2 ^ 53)); [done|lia].
Qed.

(** C5 (as amended).  The handler answers with the validation error
    exactly when the parsed id, a JavaScript number, is [NaN] or not
    positive, and then calls nothing.  Otherwise it asks [deleteQuote]
    once, with that number, and reports its answer: true as success,
    false as the failure "Not Found" (404) that names the number as
    [String] prints it, a rejected call as the failure "Failed to delete
    quote" (500).  Below 2^53 the number is the integer parsed and prints
    as its decimal numeral.  The store's [deleteQuote] itself never
    fails: it tells whether the number is the id of a live quote, and a
    number that is not leaves the store as it was. *)
Theorem delete_quote_outcomes :
  (forall S (db : QuoteDb S) param (w : World S),
      let id := ParseInt.parseInt param in
      if Number.isNaN id || Number.le_zero id then
        delete_quote param w = (Resolved (validation_error msg_bad_id), w)
      else
        snd (delete_quote param w)
        = {| store := snd (deleteQuote id (store w)); metrics := metrics w;
             calls := calls w ++ [Call_deleteQuote id] |}
        /\ fst (delete_quote param w)
           = Resolved
               match fst (deleteQuote id (store w)) with
               | Resolved true =>
                   json 200 (QuoteDeleted "Quote deleted successfully")
               | Resolved false =>
                   json 404 (Failure "Not Found"
                     (Some ("Quote with id " +:+ Number.toString id
                            +:+ " does not exist")))
               | Rejected e =>
                   json 500 (Failure "Failed to delete quote" (Some e))
               end)
  /\ (forall param z,
        ParseInt.integer param = Some z -> 0 <= z < 2 ^ 53 ->
        ParseInt.parseInt param = Number.Finite z
        /\ Number.toString (Number.Finite z) = pretty z)
  /\ (forall (id : Number.t) (s : MemDb.t),
        exists removed s',
          deleteQuote (QuoteDb := memdb) id s = (Resolved removed, s')
          /\ (removed = true
              <-> exists z, id = Number.Finite z
                            /\ z ∈ map q_id (MemDb.quotes s))
          /\ (forall z, id = Number.Finite z ->
                z ∉ map q_id (MemDb.quotes s'))
          /\ (removed = false -> s' = s)).
Proof.
  split; [|split].
  - intros S db param w. rewrite delete_quote_run. cbv zeta.
    destruct (Number.isNaN (ParseInt.parseInt param)
              || Number.le_zero (ParseInt.parseInt param)); [reflexivity|].
    destruct (deleteQuote (ParseInt.parseInt param) (store w))
      as [[[]|e] s']; by split.
  - intros param z Hp Hz. unfold ParseInt.parseInt. rewrite Hp.
    split; [apply of_integer_safe; lia|by apply toString_safe].
  - intros id s. change (deleteQuote (QuoteDb := memdb) id s)
      with (MemDb.deleteNumber id s).
    destruct id as [|z| |]; simpl;
      try (exists false, s; split_and!;
           [done|split; [done|by intros (z & ? & _)]|done|done]).
    destruct (memdb_deleteQuote z s)
      as (removed & s' & Hdel & Hiff & Hout & Hsame).
    exists removed, s'. split_and!; [done| |by intros ? [= <-]|done].
    rewrite Hiff. split; [by exists z|by intros (? & [= <-] & ?)].
Qed.

(** ** Adding *)

Lemma memdb_wf_empty : MemDb.wf MemDb.empty.
Proof.
  unfold MemDb.wf. simpl. split; [lia|]. split; [constructor|constructor].
Qed.

Lemma memdb_wf_addQuote t a (s : MemDb.t) :
  MemDb.wf s -> MemDb.wf (snd (MemDb.addQuote t a s)).
Proof.
  intros (Hpos & Hall & Hnd). unfold MemDb.wf. simpl. split; [lia|]. split.
  - apply Forall_app. split.
    + eapply Forall_impl; [exact Hall|]. simpl. intros q Hq. lia.
    + repeat constructor; simpl; lia.
  - rewrite map_app. simpl. apply NoDup_app. split; [done|]. split.
    + intros id Hin [=]%list_elem_of_singleton. subst id.
      apply list_elem_of_In, in_map_iff in Hin as (q & Hid & Hq).
      rewrite Forall_forall in Hall. apply list_elem_of_In in Hq.
      specialize (Hall q Hq). lia.
    + apply NoDup_singleton.
Qed.

Lemma memdb_wf_deleteQuote id (s : MemDb.t) :
  MemDb.wf s -> MemDb.wf (snd (MemDb.deleteQuote id s)).
Proof.
  intros (Hpos & Hall & Hnd). unfold MemDb.deleteQuote.
  destruct (existsb _ _); [|done]. unfold MemDb.wf. simpl.
  split; [done|]. split.
  - rewrite Forall_forall in Hall |- *. intros q Hq.
    apply Hall. apply list_elem_of_In in Hq. apply list_elem_of_In.
    by apply filter_In in Hq as [? _].
  - revert Hnd. generalize (MemDb.quotes s). intros l. induction l as [|q l IH].
    + done.
    + simpl. intros [Hq Hl]%NoDup_cons. destruct (negb (MemDb.has_id id q)).
      * simpl. apply NoDup_cons. split; [|by apply IH].
        rewrite list_elem_of_In, in_map_iff. intros (q' & Hid & Hin).
        apply filter_In in Hin as [Hin _]. apply Hq.
        rewrite list_elem_of_In, in_map_iff. by exists q'.
      * by apply IH.
Qed.

Lemma memdb_wf_getRandomQuote (s : MemDb.t) :
  MemDb.wf s -> MemDb.wf (snd (MemDb.getRandomQuote s)).
Proof.
  intros (Hpos & Hall & Hnd). unfold MemDb.getRandomQuote.
  destruct (MemDb.quotes s) as [|q0 l] eqn:Hq; [by rewrite <- Hq in *|].
  rewrite <- Hq in *. clear q0 l Hq.
  destruct (MemDb.quotes s !! _) as [q|] eqn:Hi; [|done].
  unfold MemDb.wf. simpl. split; [done|]. split.
  - apply Forall_insert; [done|]. simpl.
    rewrite Forall_forall in Hall. apply Hall.
    by apply list_elem_of_lookup_2 in Hi.
  - change (map q_id ?l) with (q_id <$> l). rewrite list_fmap_insert.
    simpl. rewrite list_insert_id; [done|].
    by rewrite list_lookup_fmap, Hi.
Qed.

(** C6.  Over the in-memory store, in a state that satisfies its
    invariant: a submission of two strings that are non-empty once
    trimmed, of at most 1000 and 100 code units, which the filter lets
    through, is answered 201 with a quote of zero views, the trimmed text
    and author, and an identifier that is positive and carried by no live
    quote; the quote is appended to the store, whose counter moves past
    the identifier, so the invariant holds again and later identifiers
    are greater. *)
Theorem valid_submission_is_added (pf : ProfanityFilter) t a
    (w : World MemDb.t) :
  MemDb.wf (store w) ->
  JsString.trim t <> [] -> JsString.trim a <> [] ->
  JsString.length t <= 1000 -> JsString.length a <= 100 ->
  isValid (validateQuote t a) = true ->
  let id := MemDb.nextId (store w) in
  let q := {| q_id := id; q_text := JsString.trim t;
              q_author := JsString.trim a; q_views := 0;
              q_createdAt := MemDb.clock (store w) |} in
  let w' := snd (post_quote (Some {| text := JString t; author := JString a |}) w) in
  fst (post_quote (Some {| text := JString t; author := JString a |}) w)
  = Resolved (json 201 (QuoteAdded "Quote added successfully"
                {| d_id := id; d_text := JsString.trim t;
                   d_author := JsString.trim a; d_views := 0 |}))
  /\ 0 < id
  /\ (id ∉ map q_id (MemDb.quotes (store w)))
  /\ MemDb.quotes (store w') = MemDb.quotes (store w) ++ [q]
  /\ MemDb.nextId (store w') = id + 1
  /\ MemDb.wf (store w')
  /\ quotesAddedCounter (metrics w') = Datatypes.S (quotesAddedCounter (metrics w)).
Proof.
  intros Hwf Ht Ha Hlt Hla Hok. cbv zeta.
  assert (Hnb : forall s : jsstring, s <> [] -> (JsString.length s =? 0) = false).
  { intros [|c s'] Hs; [done|]. unfold JsString.length. simpl. lia. }
  assert (Htr : forall s : jsstring, JsString.trim s <> [] -> s <> []).
  { intros s Hs ->. by apply Hs. }
  rewrite post_quote_filtered; simpl.
  - rewrite Hok. simpl. split_and!; try done.
    + by destruct Hwf.
    + destruct Hwf as (_ & Hall & _).
      rewrite list_elem_of_In, in_map_iff. intros (q & Hid & Hq).
      rewrite Forall_forall in Hall. apply list_elem_of_In in Hq.
      specialize (Hall q Hq). lia.
    + by apply (memdb_wf_addQuote _ _ (store w)).
  - by rewrite !Hnb by auto.
  - done.
  - by rewrite !Hnb by auto.
  - lia.
  - lia.
Qed.

(** ** The middleware *)

Section Middleware.

Context {S : Type} {db : QuoteDb S} {profanity : ProfanityFilter}
        {registry : Registry} {counters : CounterGet}.

(** A request through the router: the handler's response and world,
    then one increment and one sample under the request's labels. *)
Lemma serve_run req r elapsed (w : World S) :
  exists res w1,
    dispatch r w = (Resolved res, w1)
    /\ serve req r elapsed w
       = (Resolved res,
          {| store := store w1;
             metrics := on_finish req res elapsed (metrics w1);
             calls := calls w1 |})
    /\ httpRequestsCounter (metrics w1) = httpRequestsCounter (metrics w)
    /\ requestDurationHistogram (metrics w1)
       = requestDurationHistogram (metrics w).
Proof.
  destruct (dispatch_answers r w) as (res & w1 & Hd & Hc & Hh).
  exists res, w1. split; [done|]. split; [|done].
  unfold serve, handle, observe, mbind, handler_bind. rewrite Hd. reflexivity.
Qed.

Lemma on_finish_requests req res elapsed m cell :
  httpRequestsCounter (on_finish req res elapsed m) !!! cell
  = (httpRequestsCounter m !!! cell
     + if decide (cell = (method req, routeLabel req, pretty (statusCode res)))
       then 1 else 0)%nat.
Proof.
  unfold on_finish, observe_duration, inc_httpRequests. simpl.
  rewrite lookup_total_insert.
  destruct (decide (cell = (method req, routeLabel req,
                            pretty (statusCode res)))) as [->|E].
  - rewrite decide_True by done. lia.
  - rewrite decide_False by congruence. lia.
Qed.

Lemma on_finish_durations req res elapsed m cell :
  requestDurationHistogram (on_finish req res elapsed m) !!! cell
  = requestDurationHistogram m !!! cell
    ++ if decide (cell = (method req, routeLabel req)) then [elapsed] else [].
Proof.
  unfold on_finish, observe_duration, inc_httpRequests. simpl.
  rewrite lookup_total_insert.
  destruct (decide (cell = (method req, routeLabel req))) as [->|E].
  - by rewrite decide_True.
  - rewrite decide_False by congruence. by rewrite app_nil_r.
Qed.

(** A request whose connection closes before the response is sent is
    handled, and the middleware records nothing of it. *)
Lemma handle_closed req r (w : World S) :
  handle req r Closed w = dispatch r w.
Proof.
  unfold handle, observe, mbind, handler_bind.
  by destruct (dispatch r w) as [[res|e] [s1 m1 c1]].
Qed.

(** C8 (as amended).  Every request that is answered to the end,
    whichever route it takes and whatever the response, raises the
    request counter by one in the cell of its method, route label and
    status and in no other cell, adds its one duration sample to the
    histogram cell of its method and route label and to no other, and
    changes nothing else of what the handler left.  A request whose
    connection closes before the response is sent is handled all the
    same, and neither counted nor sampled.  The metrics handler renders
    the metrics as they are and leaves the whole world unchanged. *)
Theorem every_request_is_observed_once req r elapsed (w : World S) :
  (exists res w1 w2,
      dispatch r w = (Resolved res, w1)
      /\ serve req r elapsed w = (Resolved res, w2)
      /\ store w2 = store w1 /\ calls w2 = calls w1
      /\ quotesServedCounter (metrics w2) = quotesServedCounter (metrics w1)
      /\ quotesAddedCounter (metrics w2) = quotesAddedCounter (metrics w1)
      /\ profanityBlockedCounter (metrics w2)
         = profanityBlockedCounter (metrics w1)
      /\ (forall cell,
            httpRequestsCounter (metrics w2) !!! cell
            = (httpRequestsCounter (metrics w) !!! cell
               + if decide (cell = (method req, routeLabel req,
                                    pretty (statusCode res)))
                 then 1 else 0)%nat)
      /\ (forall cell,
            requestDurationHistogram (metrics w2) !!! cell
            = requestDurationHistogram (metrics w) !!! cell
              ++ if decide (cell = (method req, routeLabel req))
                 then [elapsed] else []))
  /\ (exists res w1,
        handle req r Closed w = (Resolved res, w1)
        /\ dispatch r w = (Resolved res, w1)
        /\ httpRequestsCounter (metrics w1) = httpRequestsCounter (metrics w)
        /\ requestDurationHistogram (metrics w1)
           = requestDurationHistogram (metrics w))
  /\ get_metrics w
     = (Resolved (json 200 (MetricsText (register_metrics (metrics w)))), w).
Proof.
  split; [|split; [|apply get_metrics_run]].
  - destruct (serve_run req r elapsed w) as (res & w1 & Hd & Hs & Hc & Hh).
    eexists res, w1, _. split; [done|]. split; [exact Hs|].
    cbn [store metrics calls]. split_and!; try done.
    + intros cell. by rewrite on_finish_requests, Hc.
    + intros cell. by rewrite on_finish_durations, Hh.
  - destruct (dispatch_answers r w) as (res & w1 & Hd & Hc & Hh).
    exists res, w1. by rewrite handle_closed.
Qed.



End Middleware.

(** ** Parsing the id of [DELETE /quote/:id] *)

Lemma digit_range c d :
  ParseInt.digit c = Some d -> (48 <= c <= 57)%N /\ d = Z.of_N c - 48.
Proof.
  unfold ParseInt.digit.
  destruct (N.leb_spec 48 c), (N.leb_spec c 57); simpl; intros [=]; lia.
Qed.

Lemma digit_is_not_space c d :
  ParseInt.digit c = Some d -> JsString.is_white_space c = false.
Proof.
  intros [Hc _]%digit_range. unfold JsString.is_white_space.
  repeat match goal with
         | |- context [(?a <=? ?b)%N] => destruct (N.leb_spec a b)
         | |- context [(?a =? ?b)%N] => destruct (N.eqb_spec a b)
         end; simpl; try reflexivity; lia.
Qed.

(** A run of digits is consumed whole. *)
Lemma digits_app ds rest seen acc :
  all_digits ds = true ->
  ParseInt.digits (ds ++ rest) seen acc
  = ParseInt.digits rest
      (seen || negb (bool_decide (ds = [])))
      (fold_left (fun acc c => 10 * acc + (Z.of_N c - 48)) ds acc).
Proof.
  revert seen acc. induction ds as [|c ds IH]; intros seen acc Hds; simpl.
  - by rewrite orb_false_r.
  - apply andb_true_iff in Hds as [Hc Hds].
    apply bool_decide_eq_true in Hc as [d Hd]. rewrite Hd.
    rewrite IH by done. apply digit_range in Hd as [_ ->].
    by rewrite orb_true_r.
Qed.

(** Once a digit was read the parse succeeds, and further digits only
    raise the value. *)
Lemma digits_seen rest acc :
  0 <= acc ->
  exists v, ParseInt.digits rest true acc = Some v /\ acc <= v
            /\ (starts_with_digit rest = false -> v = acc).
Proof.
  revert acc. induction rest as [|c rest IH]; intros acc Hacc; simpl.
  - by exists acc.
  - destruct (ParseInt.digit c) as [d|] eqn:Hd.
    + apply digit_range in Hd as [Hc ->].
      destruct (IH (10 * acc + (Z.of_N c - 48))) as (v & Hv & Hle & _); [lia|].
      exists v. split; [done|]. split; [lia|].
      intros Hs. apply bool_decide_eq_false in Hs. destruct Hs. by eexists.
    + by exists acc.
Qed.

Lemma decimal_value_nonneg ds acc :
  all_digits ds = true -> 0 <= acc ->
  0 <= fold_left (fun acc c => 10 * acc + (Z.of_N c - 48)) ds acc.
Proof.
  revert acc. induction ds as [|c ds IH]; intros acc Hds Hacc; simpl; [done|].
  apply andb_true_iff in Hds as [Hc Hds].
  apply bool_decide_eq_true in Hc as [d [Hc _]%digit_range].
  apply IH; [done|lia].
Qed.

(** The integer read off a parameter that begins with digits. *)
Lemma integer_digit_prefix ds rest :
  ds <> [] -> all_digits ds = true ->
  exists v, ParseInt.integer (ds ++ rest) = Some v
            /\ decimal_value ds <= v
            /\ (starts_with_digit rest = false -> v = decimal_value ds).
Proof.
  intros Hne Hds. unfold ParseInt.integer.
  destruct ds as [|c ds]; [done|].
  pose proof Hds as Hall. simpl in Hds.
  apply andb_true_iff in Hds as [Hc _].
  apply bool_decide_eq_true in Hc as [d Hd].
  cbn [app JsString.trimStart]. rewrite (digit_is_not_space c d Hd).
  pose proof (digit_range c d Hd) as [Hc _].
  destruct (N.eqb_spec c 45); [lia|]. destruct (N.eqb_spec c 43); [lia|].
  change (c :: ds ++ rest) with ((c :: ds) ++ rest).
  rewrite digits_app by done.
  rewrite bool_decide_eq_false_2 by done. cbn [negb orb].
  apply digits_seen. by apply (decimal_value_nonneg (c :: ds)).
Qed.

(** Rounding to a double keeps a positive integer positive. *)
Lemma round_positive n : 0 < n -> Number.positive (Number.round n).
Proof.
  intros Hn. unfold Number.round.
  destruct (Z.ltb_spec n (2 ^ 53)) as [|Hbig]; [done|].
  assert (53 <= Z.log2 n) as Hlog.
  { change 53 with (Z.log2 (2 ^ 53)). by apply Z.log2_le_mono. }
  set (e := Z.log2 n - 52).
  assert (0 < 2 ^ e) as Hpow by (apply Z.pow_pos_nonneg; lia).
  assert (2 ^ e <= n) as Hle.
  { destruct (Z.log2_spec n Hn) as [Hlow _].
    etrans; [|exact Hlow]. apply Z.pow_le_mono_r; lia. }
  assert (1 <= n / 2 ^ e) as Hq by (apply Z.div_le_lower_bound; lia).
  cbv zeta. fold e.
  match goal with
  | |- context [if ?b then n / 2 ^ e + 1 else n / 2 ^ e] => destruct b
  end;
    match goal with
    | |- context [2 ^ 1024 <=? ?x] => destruct (2 ^ 1024 <=? x)
    end; try done; simpl; apply Z.mul_pos_pos; lia.
Qed.

Lemma of_integer_sign z :
  Number.isNaN (Number.of_integer z) = false
  /\ Number.le_zero (Number.of_integer z) = (z <=? 0)
  /\ (0 < z -> Number.positive (Number.of_integer z)).
Proof.
  unfold Number.of_integer. destruct (Z.ltb_spec z 0) as [Hneg|Hpos].
  - pose proof (round_positive (- z) ltac:(lia)) as Hr.
    destruct (Number.round (- z)) as [|y| |]; try done; simpl in *.
    + split; [done|]. split; [|lia].
      destruct (Z.leb_spec (- y) 0), (Z.leb_spec z 0); try done; lia.
    + split; [done|]. split; [|lia]. destruct (Z.leb_spec z 0); [done|lia].
  - destruct (Z.eq_dec z 0) as [->|Hnz].
    + split; [done|]. split; [done|]. lia.
    + pose proof (round_positive z ltac:(lia)) as Hr.
      destruct (Number.round z) as [|y| |]; try done; simpl in *.
      * split; [done|]. split; [|done].
        destruct (Z.leb_spec y 0), (Z.leb_spec z 0); try done; lia.
      * split; [done|]. split; [|done]. destruct (Z.leb_spec z 0); [lia|done].
Qed.

(** A number that passes the handler's test is positive. *)
Lemma passed_id_positive x :
  Number.isNaN x || Number.le_zero x = false <-> Number.positive x.
Proof.
  destruct x as [|z| |]; simpl; try (split; [discriminate|done]); try done.
  destruct (Z.leb_spec z 0); split; try done; lia.
Qed.

(** What the handler's test of the id amounts to on the integer read. *)
Lemma id_test param :
  Number.isNaN (ParseInt.parseInt param)
  || Number.le_zero (ParseInt.parseInt param)
  = match ParseInt.integer param with
    | None => true
    | Some z => z <=? 0
    end.
Proof.
  unfold ParseInt.parseInt. destruct (ParseInt.integer param) as [z|]; [|done].
  destruct (of_integer_sign z) as (-> & -> & _). done.
Qed.

(** C9 (as amended).  A parameter that begins with the digits of a
    positive integer, whatever follows them, is not answered with the
    validation error.  The integer read is at least that integer (that
    integer itself unless more digits follow); the id is its Number
    value, a positive number, which is the integer itself up to 2^53 and
    the nearest double beyond; and the handler asks the database to
    delete that number.  In general the validation error is the answer
    exactly when no integer is read or the integer read is not
    positive. *)
Theorem delete_accepts_integer_prefix :
  (forall S (db : QuoteDb S) ds rest (w : World S),
      ds <> [] -> all_digits ds = true -> 0 < decimal_value ds ->
      exists v,
        ParseInt.integer (ds ++ rest) = Some v
        /\ decimal_value ds <= v
        /\ (starts_with_digit rest = false -> v = decimal_value ds)
        /\ ParseInt.parseInt (ds ++ rest) = Number.of_integer v
        /\ Number.positive (Number.of_integer v)
        /\ (v <= 2 ^ 53 -> Number.of_integer v = Number.Finite v)
        /\ calls (snd (delete_quote (ds ++ rest) w))
           = calls w ++ [Call_deleteQuote (Number.of_integer v)]
        /\ fst (delete_quote (ds ++ rest) w)
           <> Resolved (validation_error msg_bad_id))
  /\ (forall S (db : QuoteDb S) param (w : World S),
        fst (delete_quote param w) = Resolved (validation_error msg_bad_id)
        <-> (ParseInt.integer param = None
             \/ exists z, ParseInt.integer param = Some z /\ z <= 0)).
Proof.
  split.
  - intros S db ds rest w Hne Hds Hpos.
    destruct (integer_digit_prefix ds rest Hne Hds) as (v & Hp & Hle & Heq).
    exists v. split; [done|]. split; [done|]. split; [done|].
    assert (Hparse : ParseInt.parseInt (ds ++ rest) = Number.of_integer v).
    { unfold ParseInt.parseInt. by rewrite Hp. }
    destruct (of_integer_sign v) as (_ & _ & Hv).
    split; [done|]. split; [apply Hv; lia|].
    split; [intros Hsafe; apply of_integer_safe; lia|].
    rewrite delete_quote_run. cbv zeta. rewrite id_test, Hp.
    destruct (Z.leb_spec v 0); [lia|]. rewrite Hparse.
    destruct (deleteQuote (Number.of_integer v) (store w))
      as [[[]|e] s']; by split.
  - intros S db param w. rewrite delete_quote_run. cbv zeta.
    rewrite id_test.
    destruct (ParseInt.integer param) as [z|]; [|by split; [left|]].
    destruct (Z.leb_spec z 0).
    + split; [|done]. intros _. right. by exists z.
    + split.
      * by destruct (deleteQuote _ (store w)) as [[[]|e] s'].
      * intros [[=]|(z' & [= <-] & Hz)]. lia.
Qed.

(** ** Every request falls under one case *)

Section CaseAnalysis.

Context {S : Type} {db : QuoteDb S} {profanity : ProfanityFilter}
        {registry : Registry} {counters : CounterGet}.

Lemma dispatch_handled r (w : World S) :
  exists res s' m' made,
    dispatch r w
    = (Resolved res, {| store := s'; metrics := m'; calls := calls w ++ made |})
    /\ handled w r res s' m' made.
Proof.
  assert (Hw : forall res : Response,
             (Resolved res, w)
             = (Resolved res, {| store := store w; metrics := metrics w;
                                 calls := calls w ++ [] |})).
  { intros res. destruct w as [s0 m0 c0]. simpl. by rewrite app_nil_r. }
  destruct r as [|[sub|]| | |param| |now|res]; cbn [dispatch].
  - rewrite get_quote_run.
    destruct (getRandomQuote (store w)) as [[[q|]|e] s'] eqn:Hdb; simpl;
      eexists _, _, _, _; (split; [reflexivity|]);
      eauto using quote_served, quote_none, quote_failed.
  - destruct (first_failure sub) as [c|] eqn:Hf.
    + destruct (is_moderation c) eqn:Hc.
      * destruct c; try discriminate Hc.
        rewrite post_quote_moderation by assumption.
        eexists _, _, _, _. split; [reflexivity|]. by apply submit_blocked.
      * rewrite (post_quote_structural sub w c) by assumption.
        eexists _, _, _, _. split; [apply Hw|]. by apply submit_invalid.
    + pose proof Hf as (H1 & H2 & H3 & H4 & H5 & H6)%first_failure_none.
      rewrite post_quote_filtered by assumption.
      unfold passes in H6. simpl in H6. rewrite H6.
      destruct (addQuote _ _ (store w)) as [[q|e] s'] eqn:Hdb;
        rewrite <- app_assoc; eexists _, _, _, _; (split; [reflexivity|]);
        simpl; eauto using submit_added, submit_failed.
  - rewrite post_quote_no_body.
    eexists _, _, _, _. split; [apply Hw|]. constructor.
  - rewrite get_quotes_run.
    destruct (getAllQuotes (store w)) as [[q|e] s'] eqn:Hdb; simpl;
      eexists _, _, _, _; (split; [reflexivity|]);
      eauto using quotes_listed, quotes_failed.
  - rewrite get_stats_run.
    destruct (getStats (store w)) as [[st|e] s'] eqn:Hdb; simpl.
    + destruct (counter_get (quotesAddedCounter (metrics w))) as [a|e] eqn:Ha.
      * destruct (counter_get (profanityBlockedCounter (metrics w)))
          as [b|e] eqn:Hb;
          eexists _, _, _, _; (split; [reflexivity|]);
          eauto 6 using stats_reported, stats_unread.
      * eexists _, _, _, _. split; [reflexivity|].
        eauto using stats_unread.
    + eexists _, _, _, _. split; [reflexivity|]. eauto using stats_failed.
  - rewrite delete_quote_run. cbv zeta.
    destruct (Number.isNaN (ParseInt.parseInt param)
              || Number.le_zero (ParseInt.parseInt param)) eqn:Hid.
    { eexists _, _, _, _. split; [apply Hw|]. by apply delete_bad_id. }
    apply passed_id_positive in Hid.
    destruct (deleteQuote (ParseInt.parseInt param) (store w))
      as [[[]|e] s'] eqn:Hdb; simpl;
      eexists _, _, _, _; (split; [reflexivity|]);
      eauto using delete_done, delete_missing, delete_failed.
  - rewrite get_metrics_run.
    eexists _, _, _, _. split; [apply Hw|]. constructor.
  - eexists _, _, _, _. split; [apply Hw|]. constructor.
  - eexists _, _, _, _. split; [apply Hw|]. constructor.
Qed.

End CaseAnalysis.

(** ** Trimming *)

Lemma trimStart_split (s : jsstring) :
  exists pre, s = pre ++ JsString.trimStart s
              /\ forallb JsString.is_white_space pre = true.
Proof.
  induction s as [|c s (pre & Hs & Hpre)]; [by exists []|]. simpl.
  destruct (JsString.is_white_space c) eqn:Hc.
  - exists (c :: pre). simpl. rewrite Hc, Hpre. by rewrite <- Hs.
  - by exists [].
Qed.

Lemma trimStart_head (s : jsstring) c :
  head (JsString.trimStart s) = Some c -> JsString.is_white_space c = false.
Proof.
  induction s as [|d s IH]; [done|]. simpl.
  destruct (JsString.is_white_space d) eqn:Hd; [done|].
  simpl. by intros [= <-].
Qed.

Lemma trimStart_fixed (s : jsstring) :
  (forall c, head s = Some c -> JsString.is_white_space c = false) ->
  JsString.trimStart s = s.
Proof.
  destruct s as [|c s]; [done|]. intros H. simpl. by rewrite (H c).
Qed.

Lemma trimStart_blank (s : jsstring) :
  forallb JsString.is_white_space s = true -> JsString.trimStart s = [].
Proof.
  induction s as [|c s IH]; [done|]. simpl.
  intros [-> Hs]%andb_true_iff. by apply IH.
Qed.

Lemma trimStart_skips (ws s : jsstring) :
  forallb JsString.is_white_space ws = true ->
  JsString.trimStart (ws ++ s) = JsString.trimStart s.
Proof.
  induction ws as [|c ws IH]; [done|]. simpl.
  intros [-> Hs]%andb_true_iff. by apply IH.
Qed.

Lemma head_rev (s : jsstring) : head (rev s) = last s.
Proof.
  induction s as [|c s IH] using rev_ind; [done|].
  by rewrite rev_app_distr, last_snoc.
Qed.

Lemma last_rev (s : jsstring) : last (rev s) = head s.
Proof. by rewrite <- head_rev, rev_involutive. Qed.

Lemma trimEnd_split (s : jsstring) :
  exists post, s = JsString.trimEnd s ++ post
               /\ forallb JsString.is_white_space post = true.
Proof.
  unfold JsString.trimEnd.
  destruct (trimStart_split (rev s)) as (pre & Hs & Hpre).
  exists (rev pre). split.
  - by rewrite <- rev_app_distr, <- Hs, rev_involutive.
  - apply forallb_forall. intros c Hc%in_rev.
    rewrite forallb_forall in Hpre. by apply Hpre.
Qed.

Lemma trimEnd_last (s : jsstring) c :
  last (JsString.trimEnd s) = Some c -> JsString.is_white_space c = false.
Proof.
  unfold JsString.trimEnd. rewrite last_rev. apply trimStart_head.
Qed.

Lemma trimEnd_fixed (s : jsstring) :
  (forall c, last s = Some c -> JsString.is_white_space c = false) ->
  JsString.trimEnd s = s.
Proof.
  intros H. unfold JsString.trimEnd. rewrite trimStart_fixed.
  - apply rev_involutive.
  - intros c. rewrite head_rev. apply H.
Qed.

Lemma trimEnd_head (s : jsstring) c :
  head (JsString.trimEnd s) = Some c -> head s = Some c.
Proof.
  destruct (trimEnd_split s) as (post & Hs & _). intros Hc.
  rewrite Hs. by apply head_app_Some; left.
Qed.

(** What [trim] returns has no white space at either end, is no longer
    than its argument, and is not changed by trimming again. *)
Lemma trim_head (s : jsstring) c :
  head (JsString.trim s) = Some c -> JsString.is_white_space c = false.
Proof. intros H%trimEnd_head. by apply trimStart_head in H. Qed.

Lemma trim_last (s : jsstring) c :
  last (JsString.trim s) = Some c -> JsString.is_white_space c = false.
Proof. apply trimEnd_last. Qed.

Lemma trim_length (s : jsstring) :
  JsString.length (JsString.trim s) <= JsString.length s.
Proof.
  unfold JsString.trim, JsString.length.
  destruct (trimStart_split s) as (pre & Hs & _).
  destruct (trimEnd_split (JsString.trimStart s)) as (post & Ht & _).
  rewrite Hs at 2. rewrite Ht at 2. rewrite !length_app. lia.
Qed.

Lemma trim_trim (s : jsstring) : JsString.trim (JsString.trim s) = JsString.trim s.
Proof.
  unfold JsString.trim at 1.
  rewrite (trimStart_fixed (JsString.trim s)) by apply trim_head.
  apply trimEnd_fixed, trim_last.
Qed.

Lemma trim_blank (s : jsstring) :
  forallb JsString.is_white_space s = true -> JsString.trim s = [].
Proof. intros H. unfold JsString.trim. by rewrite trimStart_blank. Qed.

(** ** What the collaborators are asked *)

(** Splits a membership in an explicit list into its cases. *)
Ltac elems :=
  repeat match goal with
         | H : _ ∈ [] |- _ => by apply not_elem_of_nil in H
         | H : _ ∈ _ :: _ |- _ =>
             apply elem_of_cons in H as [H|H]; [simplify_eq|]
         end.

Section Asked.

Context {S : Type} {db : QuoteDb S} {profanity : ProfanityFilter}
        {registry : Registry} {counters : CounterGet}.

Lemma accepted_is_clean sub :
  first_failure sub = None ->
  clean 1000 (JsString.trim (as_string (text sub)))
  /\ clean 100 (JsString.trim (as_string (author sub)))
  /\ isValid (validateQuote (as_string (text sub)) (as_string (author sub)))
     = true.
Proof.
  intros (_ & _ & H3 & H4 & H5 & H6)%first_failure_none.
  unfold passes in H3, H4, H5, H6. simpl in H3, H4, H5, H6.
  apply andb_true_iff in H3 as [Ht Ha].
  apply negb_true_iff, Z.eqb_neq in Ht, Ha.
  apply Z.leb_le in H4, H5.
  pose proof (trim_length (as_string (text sub))).
  pose proof (trim_length (as_string (author sub))).
  assert (forall s : jsstring, 0 <= JsString.length s) as Hnn.
  { intros s. unfold JsString.length. lia. }
  pose proof (Hnn (JsString.trim (as_string (text sub)))).
  pose proof (Hnn (JsString.trim (as_string (author sub)))).
  unfold clean.
  split_and!; try apply trim_head; try apply trim_last; try done; lia.
Qed.

(** X1.  Whatever the request, a call of [addQuote] hands the store a
    text and an author that are trimmed: no white space at either end
    (trimming them again changes nothing), not empty, and of at most 1000
    and 100 code units.  The call comes right after the one call of the
    filter, which accepted the strings as they were submitted, and they
    are those strings trimmed. *)
Theorem store_is_handed_clean_quotes r (w : World S) t a :
  Call_addQuote t a ∈ drop (length (calls w)) (calls (snd (dispatch r w))) ->
  clean 1000 t /\ clean 100 a
  /\ JsString.trim t = t /\ JsString.trim a = a
  /\ exists t0 a0,
       drop (length (calls w)) (calls (snd (dispatch r w)))
       = [Call_validateQuote t0 a0; Call_addQuote t a]
       /\ isValid (validateQuote t0 a0) = true
       /\ t = JsString.trim t0 /\ a = JsString.trim a0.
Proof.
  destruct (dispatch_handled r w) as (res & s' & m' & made & -> & Hh).
  cbn [snd calls]. rewrite drop_app_length. intros Hin.
  destruct Hh;
    repeat match goal with
           | H : _ ∈ [] |- _ => by apply not_elem_of_nil in H
           | H : _ ∈ _ :: _ |- _ => apply elem_of_cons in H as [[=]|H]
           end; subst.
  - destruct (accepted_is_clean sub) as (Ht & Ha & Hok); [done|].
    split_and!; try done; try apply trim_trim. by eexists _, _.
  - destruct (accepted_is_clean sub) as (Ht & Ha & Hok); [done|].
    split_and!; try done; try apply trim_trim. by eexists _, _.
Qed.

(** X2.  A request makes at most one call to the database, and leaves
    the database as it was when it makes none; [deleteQuote] is only
    asked with a positive number; the filter is asked only by a submission
    whose fields are strings, with those strings, and never twice; the
    metrics and health routes call nothing. *)
Theorem one_database_call_per_request r (w : World S) :
  exists made,
    calls (snd (dispatch r w)) = calls w ++ made
    /\ (length (List.filter is_db_call made) <= 1)%nat
    /\ (List.filter is_db_call made = [] ->
        store (snd (dispatch r w)) = store w)
    /\ (forall id, Call_deleteQuote id ∈ made -> Number.positive id)
    /\ (forall t a, Call_validateQuote t a ∈ made ->
          exists rest, made = Call_validateQuote t a :: rest
                       /\ List.filter (negb ∘ is_db_call) rest = []
                       /\ r = POST_quote (Some {| text := JString t;
                                                  author := JString a |}))
    /\ (r = GET_metrics \/ (exists now, r = GET_health now) -> made = []).
Proof.
  destruct (dispatch_handled r w) as (res & s' & m' & made & -> & Hh).
  exists made. cbn [snd calls store]. split; [done|].
  assert (Hstr : forall sub,
             passes StringTyped sub = true ->
             sub = {| text := JString (as_string (text sub));
                      author := JString (as_string (author sub)) |}).
  { intros [[] []]; simpl; try discriminate. done. }
  split_and!.
  - destruct Hh; simpl; lia.
  - destruct Hh; simpl; try done; intros [=].
  - intros id Hin. destruct Hh; elems; by subst.
  - intros t a Hin. destruct Hh; elems; subst.
    + eexists. split; [done|]. split; [done|]. do 2 f_equal. apply Hstr.
      by apply first_failure_moderation in H as (_ & ? & _).
    + eexists. split; [done|]. split; [done|]. do 2 f_equal. apply Hstr.
      by apply first_failure_none in H as (_ & ? & _).
    + eexists. split; [done|]. split; [done|]. do 2 f_equal. apply Hstr.
      by apply first_failure_none in H as (_ & ? & _).
  - intros [->|[now ->]]; by inversion Hh.
Qed.

End Asked.

(** ** Edges of the submission checks and of the responses *)

Section Edges.

Context {S : Type} {db : QuoteDb S} {profanity : ProfanityFilter}
        {registry : Registry} {counters : CounterGet}.

(** X3.  A submission of two non-empty strings of which one consists of
    white space only is answered "cannot be empty", whatever the lengths
    and whatever the filter would say, and nothing else happens; with an
    empty string in its place the answer is "fields are required". *)
Theorem blank_field_cannot_be_empty t a (w : World S) :
  t <> [] -> a <> [] ->
  forallb JsString.is_white_space t = true
  \/ forallb JsString.is_white_space a = true ->
  post_quote (Some {| text := JString t; author := JString a |}) w
  = (Resolved (validation_error msg_empty), w)
  /\ post_quote (Some {| text := JString []; author := JString a |}) w
     = (Resolved (validation_error msg_required), w)
  /\ post_quote (Some {| text := JString t; author := JString [] |}) w
     = (Resolved (validation_error msg_required), w).
Proof.
  intros Ht Ha Hblank.
  assert (Hne : forall s : jsstring, s <> [] -> truthy (JString s) = true).
  { intros [|c s'] Hs; [done|]. reflexivity. }
  split_and!.
  - apply (post_quote_structural _ w NonBlank); [|done].
    unfold first_failure, pipeline, passes. cbn [List.find text author].
    rewrite !Hne by done. cbn [andb negb is_string as_string].
    destruct Hblank as [Hb|Hb]; rewrite (trim_blank _ Hb); cbn.
    + done.
    + by rewrite andb_false_r.
  - apply (post_quote_structural _ w Required); [|done].
    unfold first_failure, pipeline, passes. by cbn.
  - apply (post_quote_structural _ w Required); [|done].
    unfold first_failure, pipeline, passes. cbn [List.find text author].
    by rewrite andb_false_r.
Qed.


Lemma trimStart_app (t pad : jsstring) :
  JsString.trimStart t <> [] ->
  JsString.trimStart (t ++ pad) = JsString.trimStart t ++ pad.
Proof.
  induction t as [|c t IH]; [done|]. simpl.
  destruct (JsString.is_white_space c); [exact IH|done].
Qed.

Lemma trimEnd_skips (s pad : jsstring) :
  forallb JsString.is_white_space pad = true ->
  JsString.trimEnd (s ++ pad) = JsString.trimEnd s.
Proof.
  intros Hpad. unfold JsString.trimEnd. rewrite rev_app_distr.
  rewrite trimStart_skips; [done|].
  apply forallb_forall. intros c Hc%in_rev.
  rewrite forallb_forall in Hpad. by apply Hpad.
Qed.

Lemma trim_padded (t pad : jsstring) :
  forallb JsString.is_white_space pad = true ->
  JsString.trim t <> [] ->
  JsString.trim (t ++ pad) = JsString.trim t.
Proof.
  intros Hpad Ht. unfold JsString.trim.
  rewrite trimStart_app.
  - by apply trimEnd_skips.
  - intros Hnil. apply Ht. unfold JsString.trim. by rewrite Hnil.
Qed.

(** X9.  White space around a text counts towards the limit of 1000:
    a text within the limit that is padded beyond it with white space at
    its end is answered "cannot exceed 1000 characters", although the
    text the store would be handed is the same as without the padding,
    and without the padding no structural check fails. *)
Theorem padding_counts_towards_the_limit t pad a (w : World S) :
  forallb JsString.is_white_space pad = true ->
  JsString.trim t <> [] -> JsString.trim a <> [] ->
  JsString.length t <= 1000 -> JsString.length a <= 100 ->
  1000 < JsString.length (t ++ pad) ->
  post_quote (Some {| text := JString (t ++ pad); author := JString a |}) w
  = (Resolved (validation_error msg_text_length), w)
  /\ JsString.trim (t ++ pad) = JsString.trim t
  /\ (forall c, first_failure {| text := JString t; author := JString a |}
                = Some c -> c = Moderation).
Proof.
  intros Hpad Ht Ha Hlt Hla Hlong.
  assert (Hnb : forall s : jsstring, s <> [] -> (JsString.length s =? 0) = false).
  { intros [|c s'] Hs; [done|]. unfold JsString.length. simpl. lia. }
  assert (Htr : forall s : jsstring, JsString.trim s <> [] -> s <> []).
  { intros s Hs ->. by apply Hs. }
  pose proof (trim_padded t pad Hpad Ht) as Hsame.
  assert (Hne : t ++ pad <> []).
  { intros Hnil. apply app_eq_nil in Hnil as [-> _]. by apply Ht. }
  split_and!; [|done|].
  - apply (post_quote_structural _ w TextLength); [|done].
    unfold first_failure, pipeline, passes.
    cbn [List.find text author truthy is_string as_string].
    rewrite Hsame, !Hnb by auto. cbn [negb andb].
    destruct (Z.leb_spec (JsString.length (t ++ pad)) 1000); [lia|done].
  - unfold first_failure, pipeline, passes.
    cbn [List.find text author truthy is_string as_string].
    rewrite !Hnb by auto. cbn [negb andb].
    destruct (Z.leb_spec (JsString.length t) 1000); [|lia].
    destruct (Z.leb_spec (JsString.length a) 100); [|lia]. cbn [negb].
    intros c. by destruct (isValid _); intros [=].
Qed.

End Edges.

(** ** Runs of requests *)

Section RunsOfRequests.

Context {S : Type} {db : QuoteDb S} {profanity : ProfanityFilter}
        {registry : Registry} {counters : CounterGet}.

(** One request: the plain counters move by what its response shows, and
    the labelled metrics by its cells. *)
Lemma serve_counts req r elapsed (w : World S) :
  exists res w',
    serve req r elapsed w = (Resolved res, w')
    /\ quotesServedCounter (metrics w')
       = (quotesServedCounter (metrics w)
          + if counts_served r res then 1 else 0)%nat
    /\ quotesAddedCounter (metrics w')
       = (quotesAddedCounter (metrics w)
          + if counts_added r res then 1 else 0)%nat
    /\ profanityBlockedCounter (metrics w')
       = (profanityBlockedCounter (metrics w)
          + if counts_blocked r res then 1 else 0)%nat
    /\ (forall cell,
          httpRequestsCounter (metrics w') !!! cell
          = (httpRequestsCounter (metrics w) !!! cell
             + if bool_decide (counter_cell req res = cell) then 1 else 0)%nat)
    /\ (forall cell,
          requestDurationHistogram (metrics w') !!! cell
          = requestDurationHistogram (metrics w) !!! cell
            ++ if bool_decide (histogram_cell req = cell)
               then [elapsed] else []).
Proof.
  destruct (serve_run req r elapsed w) as (res & w1 & Hd & -> & Hc & Hh).
  eexists _, _. split; [reflexivity|]. cbn [metrics].
  destruct (on_finish_plain_counters req res elapsed (metrics w1))
    as (-> & -> & ->).
  assert (Hcells :
    (forall cell,
        httpRequestsCounter (on_finish req res elapsed (metrics w1)) !!! cell
        = (httpRequestsCounter (metrics w) !!! cell
           + if bool_decide (counter_cell req res = cell) then 1 else 0)%nat)
    /\ (forall cell,
          requestDurationHistogram (on_finish req res elapsed (metrics w1))
          !!! cell
          = requestDurationHistogram (metrics w) !!! cell
            ++ if bool_decide (histogram_cell req = cell)
               then [elapsed] else [])).
  { split; intros cell.
    - rewrite on_finish_requests, Hc. unfold counter_cell.
      destruct (decide (cell = _)) as [->|Hne].
      + by rewrite bool_decide_eq_true_2.
      + by rewrite bool_decide_eq_false_2.
    - rewrite on_finish_durations, Hh. unfold histogram_cell.
      destruct (decide (cell = _)) as [->|Hne].
      + by rewrite bool_decide_eq_true_2.
      + by rewrite bool_decide_eq_false_2. }
  destruct Hcells as [Hcs Hhs].
  destruct (dispatch_handled r w) as (res' & s' & m' & made & Hd' & Hhd).
  rewrite Hd in Hd'. injection Hd' as <- ->. cbn [metrics].
  split_and!; try done;
    destruct Hhd;
    try match goal with
        | H : is_moderation ?c = false |- _ => destruct c; try discriminate H
        end;
    cbn;
    rewrite ?bool_decide_eq_false_2 by discriminate;
    rewrite ?bool_decide_eq_true_2 by reflexivity;
    lia.
Qed.




Lemma handle_all_cons req r ending rest (w : World S) :
  handle_all ((req, r, ending) :: rest) w
  = match handle req r ending w with
    | (Resolved res, w1) =>
        match handle_all rest w1 with
        | (Resolved ress, w2) => (Resolved (res :: ress), w2)
        | (Rejected e, w2) => (Rejected e, w2)
        end
    | (Rejected e, w1) => (Rejected e, w1)
    end.
Proof.
  cbn [handle_all]. unfold mbind at 1, handler_bind at 1.
  destruct (handle req r ending w) as [[res|e] w1]; [|done].
  unfold mbind, handler_bind. by destruct (handle_all rest w1) as [[ress|e] w2].
Qed.

Lemma handle_counts req r ending (w : World S) :
  exists res w',
    handle req r ending w = (Resolved res, w')
    /\ (forall cell,
          httpRequestsCounter (metrics w') !!! cell
          = (httpRequestsCounter (metrics w) !!! cell
             + if finished ending && bool_decide (counter_cell req res = cell)
               then 1 else 0)%nat)
    /\ (forall cell,
          requestDurationHistogram (metrics w') !!! cell
          = requestDurationHistogram (metrics w) !!! cell
            ++ if bool_decide (histogram_cell req = cell)
               then sampled ending else []).
Proof.
  destruct ending as [elapsed|].
  - destruct (serve_counts req r elapsed w)
      as (res & w1 & Hs & _ & _ & _ & Hc & Hh).
    by exists res, w1.
  - destruct (dispatch_answers r w) as (res & w1 & Hd & Hc & Hh).
    exists res, w1. rewrite handle_closed. split; [done|].
    split; intros cell; cbn [finished sampled andb].
    + rewrite Hc. lia.
    + rewrite Hh. destruct (bool_decide _); by rewrite app_nil_r.
Qed.

(** X6.  After any run of requests, of which some are answered to the
    end and some lose their connection first, every cell of the request
    counter has grown by the number of requests of the run that were
    answered to the end with that method, route label and status, and
    every cell of the histogram has gained the durations of the requests
    answered to the end with that method and route label, in the order
    they were served; so no count ever goes down, no sample is lost, and
    a request whose connection closed is in neither. *)
Theorem cells_tally_the_requests reqs (w : World S) :
  exists ress w',
    handle_all reqs w = (Resolved ress, w')
    /\ length ress = length reqs
    /\ (forall cell,
          httpRequestsCounter (metrics w') !!! cell
          = (httpRequestsCounter (metrics w) !!! cell
             + length (List.filter
                 (fun p => finished (snd (fst p))
                           && bool_decide
                                (counter_cell (fst (fst (fst p))) (snd p)
                                 = cell))
                 (zip reqs ress)))%nat)
    /\ (forall cell,
          requestDurationHistogram (metrics w') !!! cell
          = requestDurationHistogram (metrics w) !!! cell
            ++ concat (map (fun q => sampled (snd q))
                 (List.filter
                    (fun q => bool_decide (histogram_cell (fst (fst q))
                                           = cell))
                    reqs))).
Proof.
  revert w. induction reqs as [|[[req r] ending] rest IH]; intros w.
  - exists [], w. split; [done|]. split; [done|]. split; intros cell; cbn.
    + lia.
    + by rewrite app_nil_r.
  - destruct (handle_counts req r ending w) as (res & w1 & Hs & Hc & Hh).
    destruct (IH w1) as (ress & w2 & Hr & Hlen & Ic & Ih).
    exists (res :: ress), w2. rewrite handle_all_cons, Hs, Hr.
    split; [done|]. split; [cbn; lia|]. split; intros cell.
    + rewrite Ic, Hc. cbn [zip zip_with List.filter fst snd].
      destruct (finished ending && bool_decide (counter_cell req res = cell));
        cbn [length]; lia.
    + rewrite Ih, Hh. cbn [List.filter fst snd].
      destruct (bool_decide (histogram_cell req = cell));
        cbn [map concat snd].
      * by rewrite <- app_assoc.
      * by rewrite app_nil_r.
Qed.

End RunsOfRequests.

(** ** More on the id parameter *)

Lemma delete_quote_ext {S} {db : QuoteDb S} p1 p2 (w : World S) :
  ParseInt.parseInt p1 = ParseInt.parseInt p2 ->
  delete_quote p1 w = delete_quote p2 w.
Proof. intros H. by rewrite !delete_quote_run, H. Qed.

Lemma digits_nonneg s seen acc v :
  0 <= acc -> ParseInt.digits s seen acc = Some v -> 0 <= v.
Proof.
  revert seen acc. induction s as [|c s IH]; intros seen acc Hacc; simpl.
  - destruct seen; [|done]. by intros [= <-].
  - destruct (ParseInt.digit c) as [d|] eqn:Hd.
    + apply digit_range in Hd as [Hc ->]. apply IH. lia.
    + destruct seen; [|done]. by intros [= <-].
Qed.

Lemma digits_exact (l : jsstring) :
  l <> [] -> all_digits l = true ->
  ParseInt.digits l false 0 = Some (decimal_value l).
Proof.
  intros Hl Hd. rewrite <- (app_nil_r l) at 1.
  rewrite digits_app by done. by rewrite bool_decide_eq_false_2.
Qed.

(** X7.  White space before the id is ignored, and so is a plus sign
    before its digits: the request is handled as the one without them.
    A parameter whose first character after white space is a minus sign
    is answered with the validation error, whatever follows, and nothing
    is called. *)
Theorem delete_sign_and_space {S} {db : QuoteDb S} ws param (w : World S) :
  forallb JsString.is_white_space ws = true ->
  delete_quote (ws ++ param) w = delete_quote param w
  /\ (starts_with_digit param = true ->
      delete_quote (ws ++ 43%N :: param) w = delete_quote param w)
  /\ delete_quote (ws ++ 45%N :: param) w
     = (Resolved (validation_error msg_bad_id), w).
Proof.
  intros Hws.
  assert (Hint : forall p, ParseInt.integer (ws ++ p) = ParseInt.integer p).
  { intros p. unfold ParseInt.integer. by rewrite trimStart_skips. }
  assert (Hskip : forall p, ParseInt.parseInt (ws ++ p) = ParseInt.parseInt p).
  { intros p. unfold ParseInt.parseInt. by rewrite Hint. }
  split_and!.
  - by apply delete_quote_ext.
  - intros Hd. apply delete_quote_ext. rewrite Hskip.
    destruct param as [|c p]; [done|].
    apply bool_decide_eq_true in Hd as [d Hd].
    unfold ParseInt.parseInt, ParseInt.integer. cbn [JsString.trimStart].
    rewrite (digit_is_not_space c d Hd).
    pose proof (digit_range c d Hd) as [Hc _].
    change (JsString.is_white_space 43%N) with false. cbn.
    destruct (N.eqb_spec c 45); [lia|]. destruct (N.eqb_spec c 43); [lia|].
    done.
  - rewrite (delete_quote_ext _ (45%N :: param)) by apply Hskip.
    rewrite delete_quote_run. cbv zeta. rewrite id_test.
    unfold ParseInt.integer. cbn [JsString.trimStart].
    change (JsString.is_white_space 45%N) with false. cbn.
    destruct (ParseInt.digits param false 0) as [v|] eqn:Hv; [|done].
    cbn. apply digits_nonneg in Hv; [|done].
    destruct (Z.leb_spec (- v) 0); [done|lia].
Qed.

Lemma pretty_N_char_code d :
  (d < 10)%N -> Ascii.N_of_ascii (pretty_N_char d) = (48 + d)%N.
Proof.
  intros Hd.
  assert (d = 0 \/ d = 1 \/ d = 2 \/ d = 3 \/ d = 4 \/ d = 5 \/ d = 6
          \/ d = 7 \/ d = 8 \/ d = 9)%N as Hcases by lia.
  repeat destruct Hcases as [->|Hcases]; try reflexivity. by subst.
Qed.

(** The numeral of [x] in front of digits [s] reads as [x] followed by
    [s]. *)
Lemma pretty_N_go_value x s :
  all_digits (JsString.of_ascii s) = true ->
  all_digits (JsString.of_ascii (pretty_N_go x s)) = true
  /\ decimal_value (JsString.of_ascii (pretty_N_go x s))
     = fold_left (fun acc c => 10 * acc + (Z.of_N c - 48))
         (JsString.of_ascii s) (Z.of_N x).
Proof.
  revert s. induction (N.lt_wf_0 x) as [x _ IH]; intros s Hs.
  assert (x = 0 \/ 0 < x)%N as [->|Hx] by lia.
  - by rewrite pretty_N_go_0.
  - rewrite pretty_N_go_step by done.
    pose proof (N.div_mod x 10 ltac:(done)) as Hdm.
    pose proof (N.mod_lt x 10 ltac:(done)) as Hm.
    pose proof (N.div_lt x 10 Hx ltac:(done)) as Hq.
    set (m := (x `mod` 10)%N) in *. set (q := (x `div` 10)%N) in *.
    clearbody m q.
    pose proof (pretty_N_char_code m Hm) as Hc.
    destruct (IH q Hq (String (pretty_N_char m) s)) as [Hall Hval].
    + cbn [JsString.of_ascii all_digits forallb]. rewrite Hc.
      apply andb_true_iff. split; [|exact Hs].
      apply bool_decide_eq_true. unfold ParseInt.digit.
      destruct (N.leb_spec 48 (48 + m)), (N.leb_spec (48 + m) 57); simpl;
        try (by eexists); exfalso; lia.
    + split; [done|]. rewrite Hval. cbn [JsString.of_ascii fold_left].
      rewrite Hc. f_equal. lia.
Qed.

Lemma pretty_positive_value (p : positive) :
  let l := JsString.of_ascii (pretty p) in
  l <> [] /\ all_digits l = true /\ decimal_value l = Z.pos p.
Proof.
  cbv zeta. unfold pretty, pretty_positive, pretty, pretty_N.
  rewrite decide_False by done.
  destruct (pretty_N_go_value (N.pos p) "") as [Hall Hval]; [done|].
  split_and!; [|done|done].
  intros Hnil. rewrite Hnil in Hval. discriminate Hval.
Qed.

(** X8.  [Number.parseInt] on the decimal numeral of an integer reads
    that integer and returns the nearest JavaScript number, which is the
    integer itself up to [2 ^ 53] in magnitude.  So a request that names
    a positive id by its numeral asks the store to delete that number,
    and when the store has no such quote the "Not Found" message shows
    the number as [String(id)] prints it; for an id below [2 ^ 53] the
    store is asked for exactly that id and the message shows the
    parameter as it was sent. *)
Theorem delete_by_numeral {S} {db : QuoteDb S} (w : World S) id :
  let param := JsString.of_ascii (pretty id) in
  ParseInt.integer param = Some id
  /\ ParseInt.parseInt param = Number.of_integer id
  /\ (- 2 ^ 53 <= id <= 2 ^ 53 -> ParseInt.parseInt param = Number.Finite id)
  /\ (0 < id ->
      calls (snd (delete_quote param w))
      = calls w ++ [Call_deleteQuote (Number.of_integer id)]
      /\ (fst (deleteQuote (Number.of_integer id) (store w)) = Resolved false ->
          exists msg,
            fst (delete_quote param w)
            = Resolved (json 404 (Failure "Not Found" (Some msg)))
            /\ JsString.of_ascii msg
               = JsString.of_ascii "Quote with id "
                 ++ JsString.of_ascii
                      (Number.toString (Number.of_integer id))
                 ++ JsString.of_ascii " does not exist"))
  /\ (0 < id < 2 ^ 53 ->
      Number.of_integer id = Number.Finite id
      /\ JsString.of_ascii (Number.toString (Number.of_integer id)) = param).
Proof.
  cbv zeta.
  assert (Hint : ParseInt.integer (JsString.of_ascii (pretty id)) = Some id).
  { destruct id as [|p|p].
    - reflexivity.
    - destruct (pretty_positive_value p) as (Hne & Hall & Hval).
      destruct (integer_digit_prefix _ [] Hne Hall) as (v & Hv & _ & Heq).
      rewrite app_nil_r in Hv. change (pretty (Z.pos p)) with (pretty p).
      rewrite Hv, Heq by done. by rewrite Hval.
    - destruct (pretty_positive_value p) as (Hne & Hall & Hval).
      change (pretty (Z.neg p)) with ("-" +:+ pretty p).
      change (JsString.of_ascii ("-" +:+ pretty p))
        with (45%N :: JsString.of_ascii (pretty p)).
      unfold ParseInt.integer. cbn [JsString.trimStart].
      change (JsString.is_white_space 45%N) with false. cbn.
      rewrite digits_exact by done. cbn. by rewrite Hval. }
  assert (Hparse : ParseInt.parseInt (JsString.of_ascii (pretty id))
                   = Number.of_integer id).
  { unfold ParseInt.parseInt. by rewrite Hint. }
  split_and!; [exact Hint|exact Hparse| | |].
  - intros Hid. rewrite Hparse. by apply of_integer_safe.
  - intros Hid.
    rewrite delete_quote_run. cbv zeta. rewrite id_test, Hint, Hparse.
    destruct (Z.leb_spec id 0); [lia|].
    assert (Happ : forall a b, JsString.of_ascii (a +:+ b)
                               = JsString.of_ascii a ++ JsString.of_ascii b).
    { intros a b. induction a as [|c a IH]; [done|]. cbn. by rewrite <- IH. }
    destruct (deleteQuote (Number.of_integer id) (store w)) as [[[]|e] s'];
      cbn; split; try done.
    intros _. eexists. split; [reflexivity|]. by rewrite !Happ.
  - intros Hid. rewrite of_integer_safe by lia. split; [done|].
    rewrite toString_safe by lia. done.
Qed.

(** ** The handlers on sample requests *)

Example trim_both_ends :
  JsString.trim (JsString.of_ascii "  a b  ") = JsString.of_ascii "a b".
Proof. reflexivity. Qed.

Example parseInt_samples :
  ParseInt.parseInt (JsString.of_ascii " 42") = Number.Finite 42
  /\ ParseInt.parseInt (JsString.of_ascii "-7x") = Number.Finite (-7)
  /\ ParseInt.parseInt (JsString.of_ascii "0") = Number.Finite 0
  /\ ParseInt.parseInt (JsString.of_ascii "abc") = Number.NaN
  /\ ParseInt.parseInt (JsString.of_ascii "+-5") = Number.NaN
  /\ ParseInt.parseInt (JsString.of_ascii "9007199254740993")
     = Number.Finite 9007199254740992.
Proof. by repeat split. Qed.

(** [String(x)] on numbers of growing size: digits up to [2 ^ 53], the
    shortest digits that read back as the number followed by zeros up to
    [10 ^ 21], the exponent form from there on. *)
Example toString_samples :
  Number.toString (Number.Finite 42) = "42"
  /\ Number.toString (Number.Finite (-7)) = "-7"
  /\ Number.toString (Number.of_integer (2 ^ 64)) = "18446744073709552000"
  /\ Number.toString (Number.of_integer (10 ^ 21)) = "1e+21"
  /\ Number.toString (Number.of_integer (2 ^ 70)) = "1.1805916207174113e+21"
  /\ Number.toString (Number.of_integer (10 ^ 400)) = "Infinity"
  /\ Number.toString Number.NaN = "NaN".
Proof. by vm_compute. Qed.

(** Empty store, a quote added, read once, then the statistics. *)
Example add_read_stats :
  let w0 := boot MemDb.empty in
  let added := post_quote (Some {| text := JString stay_hungry;
                                   author := JString steve_jobs |}) w0 in
  let served := get_quote (snd added) in
  let hungry :=
    {| d_id := 1; d_text := JsString.of_ascii "Stay hungry, stay foolish.";
       d_author := steve_jobs; d_views := 0 |} in
  fst (get_quote w0) = Resolved not_found
  /\ fst added
     = Resolved (json 201 (QuoteAdded "Quote added successfully" hungry))
  /\ fst served
     = Resolved (json 200 (QuoteServed
         {| d_id := d_id hungry; d_text := d_text hungry;
            d_author := d_author hungry; d_views := 1 |}))
  /\ fst (get_stats (snd served)) = Resolved (json 200 (StatsReport 1 1 1 0)).
Proof. by repeat split. Qed.

(** With the storage unavailable the random-quote handler answers 500. *)
Example get_quote_offline :
  fst (get_quote (boot tt))
  = Resolved (json 500 (Failure "Failed to fetch quote" (Some msg_unavailable))).
Proof. reflexivity. Qed.

(** Where the counter read throws, the statistics handler answers 500. *)
Example get_stats_pending :
  fst (get_stats (counters := counter_pending) (boot MemDb.empty))
  = Resolved (json 500 (Failure "Failed to fetch statistics"
       (Some "Cannot read properties of undefined (reading '0')"))).
Proof. reflexivity. Qed.

(** ** The claims on sample requests *)

Lemma post_quote_first_failure_wins_witness :
  fst (post_quote (Some long_profane) (boot MemDb.empty))
  = Resolved (rejection TextLength long_profane)
  /\ passes Moderation long_profane = false.
Proof.
  split.
  - apply (post_quote_first_failure_wins long_profane (boot MemDb.empty)
             TextLength).
    vm_compute. reflexivity.
  - vm_compute. reflexivity.
Defined.

(** C1 (as stated) fails on an empty text: both fields are present and
    non-null and both are strings, so the first check of the claimed
    order that fails is the third (trimmed fields non-empty); the handler
    answers with the first check's response ("fields are required"). *)
Lemma spec_order_counterexample :
  spec_first_failure empty_text = Some NonBlank
  /\ ~ (forall c, spec_first_failure empty_text = Some c ->
          fst (post_quote (Some empty_text) (boot MemDb.empty))
          = Resolved (rejection c empty_text)).
Proof.
  split; [reflexivity|].
  intros H. specialize (H NonBlank eq_refl). vm_compute in H. discriminate H.
Qed.

(** C5 (as stated) fails on an id that is not in the store: the handler
    does not report a plain false but answers with a failure, "Not
    Found", which is not the validation error. *)
Lemma delete_missing_counterexample :
  ~ (forall res,
        fst (delete_quote five (boot MemDb.empty)) = Resolved res ->
        is_failure res = true -> res = validation_error msg_bad_id).
Proof.
  intros H.
  specialize (H (json 404 (Failure "Not Found"
                   (Some "Quote with id 5 does not exist"))) eq_refl eq_refl).
  discriminate H.
Qed.

Lemma rejected_submission_leaves_store_witness :
  first_failure damn_test = Some Moderation
  /\ store (snd (post_quote (Some damn_test) (boot MemDb.empty))) = MemDb.empty.
Proof.
  assert (Hf : first_failure damn_test = Some Moderation) by reflexivity.
  split; [exact Hf|].
  destruct (rejected_submission_leaves_store damn_test (boot MemDb.empty)
              Moderation Hf)
    as (res & w' & made & Hrun & _ & Hstore & _).
  rewrite Hrun. exact Hstore.
Defined.

Lemma blocked_counter_counts_moderation_witness :
  profanityBlockedCounter
    (metrics (snd (dispatch (POST_quote (Some damn_test)) (boot MemDb.empty))))
  = 1%nat
  /\ snd (dispatch (POST_quote (Some no_author)) (boot MemDb.empty))
     = boot MemDb.empty.
Proof.
  split.
  - exact (proj1 (blocked_counter_counts_moderation
                    (POST_quote (Some damn_test)) (boot MemDb.empty))).
  - apply (proj2 (blocked_counter_counts_moderation
                    (POST_quote (Some no_author)) (boot MemDb.empty))
             no_author Required); reflexivity.
Defined.

Lemma empty_store_is_not_a_fault_witness :
  get_quote (boot MemDb.empty)
  = (Resolved not_found, log_call Call_getRandomQuote (boot MemDb.empty))
  /\ quotesServedCounter
       (metrics (snd (dispatch GET_stats (boot MemDb.empty)))) = 0%nat.
Proof.
  destruct empty_store_is_not_a_fault as (Hempty & _ & _ & Hothers). split.
  - apply (Hempty (boot MemDb.empty)). reflexivity.
  - apply (Hothers MemDb.t memdb word_filter plain_registry counter_now
             GET_stats (boot MemDb.empty)).
    discriminate.
Defined.

Lemma delete_quote_outcomes_witness :
  fst (delete_quote five (boot MemDb.empty))
  = Resolved (json 404 (Failure "Not Found"
                (Some "Quote with id 5 does not exist")))
  /\ ParseInt.parseInt five = Number.Finite 5
  /\ snd (deleteQuote (QuoteDb := memdb) (Number.Finite 5) MemDb.empty)
     = MemDb.empty.
Proof.
  destruct delete_quote_outcomes as (Hrun & Hnum & Hdb). split_and!.
  - apply (Hrun MemDb.t memdb five (boot MemDb.empty)).
  - apply (Hnum five 5); [reflexivity|vm_compute; by split].
  - destruct (Hdb (Number.Finite 5) MemDb.empty)
      as (removed & s' & Hdel & Hiff & _ & Hsame).
    rewrite Hdel. simpl. apply Hsame.
    destruct removed; [|reflexivity].
    destruct Hiff as [Hin _]. destruct (Hin eq_refl) as (z & _ & Hz).
    exfalso. revert Hz. apply not_elem_of_nil.
Defined.

Lemma valid_submission_is_added_witness :
  fst (post_quote (Some {| text := JString stay_hungry;
                           author := JString steve_jobs |})
         (boot MemDb.empty))
  = Resolved (json 201 (QuoteAdded "Quote added successfully"
       {| d_id := 1; d_text := JsString.of_ascii "Stay hungry, stay foolish.";
          d_author := steve_jobs; d_views := 0 |})).
Proof.
  apply (valid_submission_is_added word_filter stay_hungry steve_jobs
           (boot MemDb.empty)).
  - apply memdb_wf_empty.
  - discriminate.
  - discriminate.
  - vm_compute. discriminate.
  - vm_compute. discriminate.
  - reflexivity.
Defined.

Lemma delete_accepts_integer_prefix_witness :
  ParseInt.parseInt (JsString.of_ascii "5abc") = Number.Finite 5
  /\ ParseInt.parseInt (JsString.of_ascii "3.9") = Number.Finite 3
  /\ calls (snd (delete_quote (JsString.of_ascii "5abc") (boot MemDb.empty)))
     = [Call_deleteQuote (Number.Finite 5)]
  /\ fst (delete_quote (JsString.of_ascii "5abc") (boot MemDb.empty))
     <> Resolved (validation_error msg_bad_id).
Proof.
  destruct delete_accepts_integer_prefix as [Hprefix _].
  destruct (Hprefix MemDb.t memdb (JsString.of_ascii "5")
              (JsString.of_ascii "abc") (boot MemDb.empty))
    as (v & Hint & _ & Hv & Hparse & _ & Hsafe & Hcalls & Hres).
  - discriminate.
  - reflexivity.
  - reflexivity.
  - assert (Hv5 : v = 5) by (apply Hv; reflexivity). subst v.
    split_and!; [exact Hparse|reflexivity|exact Hcalls|exact Hres].
Defined.

(** C9 (as stated) fails beyond [2 ^ 53]: the parameter begins with the
    digits of the positive integer 9007199254740993, followed by
    letters, and the request is not treated as the deletion of that id.
    The store is asked to delete 9007199254740992, the number that
    [Number.parseInt] returns for these digits, and the "Not Found"
    message names that other id. *)
Lemma delete_beyond_safe_counterexample :
  all_digits beyond_safe_digits = true
  /\ decimal_value beyond_safe_digits = 9007199254740993
  /\ ParseInt.integer beyond_safe = Some (decimal_value beyond_safe_digits)
  /\ calls (snd (delete_quote beyond_safe (boot MemDb.empty)))
     <> [Call_deleteQuote (Number.Finite (decimal_value beyond_safe_digits))]
  /\ delete_quote beyond_safe (boot MemDb.empty)
     = (Resolved (json 404 (Failure "Not Found"
          (Some "Quote with id 9007199254740992 does not exist"))),
        log_call (Call_deleteQuote (Number.Finite 9007199254740992))
          (boot MemDb.empty)).
Proof.
  split_and!; by vm_compute.
Qed.


(** C8 (as stated) fails on a request whose connection closes before
    the response is sent: the handler runs and answers, and no cell of
    the request counter is raised and no duration is recorded. *)
Lemma closed_request_counterexample :
  fst (handle health_check (GET_health "2024-01-01T00:00:00.000Z") Closed
         (boot MemDb.empty))
  = Resolved (json 200 (Healthy "2024-01-01T00:00:00.000Z"))
  /\ ~ (exists cell,
          httpRequestsCounter
            (metrics (snd (handle health_check
                             (GET_health "2024-01-01T00:00:00.000Z") Closed
                             (boot MemDb.empty)))) !!! cell
          = Datatypes.S
              (httpRequestsCounter (metrics (boot MemDb.empty)) !!! cell))
  /\ ~ (exists cell sample,
          requestDurationHistogram
            (metrics (snd (handle health_check
                             (GET_health "2024-01-01T00:00:00.000Z") Closed
                             (boot MemDb.empty)))) !!! cell
          = requestDurationHistogram (metrics (boot MemDb.empty)) !!! cell
            ++ [sample]).
Proof.
  split_and!; [reflexivity| |].
  - intros (cell & H). rewrite handle_closed in H. cbn in H. lia.
  - intros (cell & sample & H). rewrite handle_closed in H. cbn in H.
    apply (f_equal length) in H. rewrite length_app in H. cbn in H. lia.
Qed.

(** ** The further properties on sample requests *)

Lemma store_is_handed_clean_quotes_witness :
  clean 1000 (JsString.of_ascii "Stay hungry, stay foolish.")
  /\ clean 100 steve_jobs.
Proof.
  destruct (store_is_handed_clean_quotes
              (POST_quote (Some {| text := JString stay_hungry;
                                   author := JString steve_jobs |}))
              (boot MemDb.empty)
              (JsString.of_ascii "Stay hungry, stay foolish.") steve_jobs)
    as (Ht & Ha & _).
  - vm_compute. apply elem_of_cons. right. apply elem_of_cons. by left.
  - by split.
Defined.

Lemma one_database_call_per_request_witness :
  exists made,
    calls (snd (dispatch (DELETE_quote five) (boot MemDb.empty)))
    = calls (boot MemDb.empty) ++ made
    /\ Call_deleteQuote (Number.Finite 5) ∈ made
    /\ Number.positive (Number.Finite 5).
Proof.
  destruct (one_database_call_per_request (DELETE_quote five)
              (boot MemDb.empty))
    as (made & Hcalls & _ & _ & Hpos & _).
  exists made. split; [exact Hcalls|].
  assert (Hin : Call_deleteQuote (Number.Finite 5) ∈ made).
  { pose proof Hcalls as Hmade. vm_compute in Hmade. rewrite <- Hmade.
    apply elem_of_cons. by left. }
  split; [exact Hin|]. by apply Hpos.
Defined.

Lemma blank_field_cannot_be_empty_witness :
  post_quote (Some {| text := JString three_spaces; author := ascii_val "A" |})
    (boot MemDb.empty)
  = (Resolved (validation_error msg_empty), boot MemDb.empty).
Proof.
  apply (blank_field_cannot_be_empty three_spaces (JsString.of_ascii "A")
           (boot MemDb.empty)).
  - discriminate.
  - discriminate.
  - left. reflexivity.
Defined.



Lemma delete_sign_and_space_witness :
  delete_quote (JsString.of_ascii " +5") (boot MemDb.empty)
  = delete_quote five (boot MemDb.empty)
  /\ delete_quote (JsString.of_ascii " -5") (boot MemDb.empty)
     = (Resolved (validation_error msg_bad_id), boot MemDb.empty).
Proof.
  destruct (delete_sign_and_space (JsString.of_ascii " ") five
              (boot MemDb.empty) eq_refl) as (_ & Hplus & Hminus).
  split; [by apply Hplus|exact Hminus].
Defined.

Lemma delete_by_numeral_witness :
  calls (snd (delete_quote (JsString.of_ascii (pretty 5)) (boot MemDb.empty)))
  = [Call_deleteQuote (Number.Finite 5)]
  /\ ParseInt.parseInt (JsString.of_ascii (pretty (- 7))) = Number.Finite (- 7)
  /\ JsString.of_ascii (Number.toString (Number.of_integer 5))
     = JsString.of_ascii (pretty 5).
Proof.
  destruct (delete_by_numeral (boot MemDb.empty) 5)
    as (_ & _ & _ & Hcall & Hsafe).
  destruct (delete_by_numeral (boot MemDb.empty) (- 7)) as (_ & _ & Hneg & _).
  split_and!.
  - apply Hcall. lia.
  - apply Hneg. vm_compute. by split.
  - apply Hsafe. vm_compute. by split.
Defined.

Lemma padding_counts_towards_the_limit_witness :
  post_quote (Some {| text := JString (thousand_x ++ three_spaces);
                      author := ascii_val "X" |}) (boot MemDb.empty)
  = (Resolved (validation_error msg_text_length), boot MemDb.empty)
  /\ JsString.trim (thousand_x ++ three_spaces) = JsString.trim thousand_x.
Proof.
  destruct (padding_counts_towards_the_limit thousand_x three_spaces
              (JsString.of_ascii "X") (boot MemDb.empty)) as (Hrun & Hsame & _).
  - reflexivity.
  - vm_compute. discriminate.
  - discriminate.
  - vm_compute. discriminate.
  - vm_compute. discriminate.
  - vm_compute. reflexivity.
  - by split.
Defined.
